(** * Hospital appointment scheduler: slot grid, placement and appointment hook

    A shallow embedding of the scheduling logic of the day and week calendar
    components ([DayView.tsx], [WeekView.tsx]), of the [useAppointments] hook
    and of the query window derived by [ScheduleView.tsx], with the
    properties stated about them.

    Conventions of the embedding.
    - A JavaScript [Date] is the number of milliseconds of its local
      wall-clock reading (an integer, [Z]); the local zone has a fixed offset,
      so a calendar day is always 24 hours long.  Only valid dates are
      modelled.
    - The fields [startTime] and [endTime] of an appointment hold the value
      of [new Date(apt.startTime)] and [new Date(apt.endTime)].
    - A [for] loop is run with fuel; running out of fuel stands for a loop
      that has not finished yet.
    - The state setters of the hook take effect in the order they are
      called, and the exposed state is observed once the effect of a
      selection change has run. *)

From Stdlib Require Import ZArith List Bool String Ascii Lia.
From Stdlib Require Import Sorted Permutation.
Import ListNotations.
Open Scope string_scope.
Open Scope list_scope.
Open Scope Z_scope.

(** ** Dates: the JavaScript [Date] methods and the date-fns functions used *)

Module DateFns.

Definition Date := Z.

Definition MS_PER_MINUTE : Z := 60000.
Definition MS_PER_HOUR : Z := 3600000.
Definition MS_PER_DAY : Z := 86400000.

(** [startOfDay(d)]: midnight of the local day of [d]. *)
Definition startOfDay (d : Date) : Date := d - d mod MS_PER_DAY.

(** [d.setHours(h, m, s, ms)]; components out of range carry over. *)
Definition setHours (d : Date) (h m s ms : Z) : Date :=
  startOfDay d + h * MS_PER_HOUR + m * MS_PER_MINUTE + s * 1000 + ms.

Definition getHours (d : Date) : Z := (d mod MS_PER_DAY) / MS_PER_HOUR.
Definition getMinutes (d : Date) : Z := (d mod MS_PER_HOUR) / MS_PER_MINUTE.

(** [d.setMinutes(m)]: replaces the minute field, carrying over. *)
Definition setMinutes (d : Date) (m : Z) : Date :=
  d - getMinutes d * MS_PER_MINUTE + m * MS_PER_MINUTE.

(** [d.getDay()]: 0 is Sunday; day 0 of the epoch was a Thursday. *)
Definition getDay (d : Date) : Z := (d / MS_PER_DAY + 4) mod 7.

(** [addDays(d, n)], which is [d.setDate(d.getDate() + n)]. *)
Definition addDays (d : Date) (n : Z) : Date := d + n * MS_PER_DAY.

Definition isBefore (a b : Date) : bool := a <? b.
Definition isAfter (a b : Date) : bool := a >? b.

(** [startOfWeek(d, { weekStartsOn })] of date-fns:
    [diff = (day < weekStartsOn ? 7 : 0) + day - weekStartsOn], then
    [setDate(getDate() - diff)] and [setHours(0, 0, 0, 0)]. *)
Definition startOfWeek (d : Date) (weekStartsOn : Z) : Date :=
  let day := getDay d in
  let diff := (if day <? weekStartsOn then 7 else 0) + day - weekStartsOn in
  setHours (addDays d (- diff)) 0 0 0 0.

Definition digit (n : Z) : ascii := ascii_of_nat (48 + Z.to_nat n).

Definition pad2 (n : Z) : string :=
  String (digit (n / 10)) (String (digit (n mod 10)) EmptyString).

(** [format(d, 'HH:mm')]. *)
Definition formatHHmm (d : Date) : string :=
  (pad2 (getHours d) ++ String ":"%char (pad2 (getMinutes d)))%string.

(** Days since the epoch of a date of the proleptic Gregorian calendar
    (month 1 to 12), and [new Date(y, m - 1, d, hh, mm)]. *)
Definition days_from_civil (y m d : Z) : Z :=
  let y' := if m <=? 2 then y - 1 else y in
  let era := y' / 400 in
  let yoe := y' - era * 400 in
  let doy := (153 * (m + (if 2 <? m then -3 else 9)) + 2) / 5 + d - 1 in
  let doe := yoe * 365 + yoe / 4 - yoe / 100 + doy in
  era * 146097 + doe - 719468.

Definition localDate (y m d hh mm : Z) : Date :=
  days_from_civil y m d * MS_PER_DAY + hh * MS_PER_HOUR + mm * MS_PER_MINUTE.

Definition ymd (y m d : Z) : Date := localDate y m d 0 0.

End DateFns.
Import DateFns.

(** ** The data model of [@/types] *)

Record TimeSlot : Type := mkTimeSlot
  { start : Date; end_ : Date; label : string }.

Record Appointment : Type := mkAppointment
  { apt_id : string;
    patientId : string;
    doctorId : string;
    apt_type : string;
    startTime : Date;
    endTime : Date }.

Record CalendarConfig : Type := mkCalendarConfig
  { startHour : Z; endHour : Z; slotDuration : Z }.

(** Modelled from the spec: the constant [DEFAULT_CALENDAR_CONFIG] of
    [@/types] is not among the sources; the components describe it as
    8 AM to 6 PM in 30-minute intervals.  The functions below take the
    configuration as an argument. *)
Definition DEFAULT_CALENDAR_CONFIG : CalendarConfig :=
  {| startHour := 8; endHour := 18; slotDuration := 30 |}.

(** ** Completions of statements *)

Definition Error := string.

Inductive Completion (A : Type) : Type :=
| Normal (a : A)
| Throw (e : Error)
| OutOfFuel.
Arguments Normal {A} a.
Arguments Throw {A} e.
Arguments OutOfFuel {A}.

(** [for (let i = init; cond(i); i = next(i)) body], threading the state
    [St] the body changes. *)
Fixpoint for_loop {St : Type} (fuel : nat) (cond : Z -> bool) (next : Z -> Z)
    (body : Z -> St -> Completion St) (i : Z) (s : St) : Completion St :=
  match fuel with
  | O => OutOfFuel
  | S fuel' =>
      if cond i then
        match body i s with
        | Normal s' => for_loop fuel' cond next body (next i) s'
        | Throw e => Throw e
        | OutOfFuel => OutOfFuel
        end
      else Normal s
  end.

(** ** Slot generation ([timeSlots] of DayView.tsx and WeekView.tsx) *)

Module SlotGrid.

(** The loop body: [start = new Date(date); start.setHours(hour, minute, 0, 0);
    end = new Date(start); end.setMinutes(end.getMinutes() + slotDuration)]. *)
Definition makeSlot (cfg : CalendarConfig) (date : Date) (hour minute : Z)
  : TimeSlot :=
  let start := setHours date hour minute 0 0 in
  let end_ := setMinutes start (getMinutes start + slotDuration cfg) in
  {| start := start; end_ := end_; label := formatHHmm start |}.

Definition timeSlots (fuel : nat) (cfg : CalendarConfig) (date : Date)
  : Completion (list TimeSlot) :=
  for_loop fuel (fun hour => hour <? endHour cfg) Z.succ
    (fun hour slots =>
       for_loop fuel (fun minute => minute <? 60)
         (fun minute => minute + slotDuration cfg)
         (fun minute slots => Normal (slots ++ [makeSlot cfg date hour minute]))
         0 slots)
    (startHour cfg) [].

End SlotGrid.

(** ** Placement in the day view (DayView.tsx) *)

Module DayView.

Definition timeSlots := SlotGrid.timeSlots.

Definition getAppointmentsForSlot (appointments : list Appointment)
    (slot : TimeSlot) : list Appointment :=
  filter (fun apt =>
            let aptStart := startTime apt in
            let aptEnd := endTime apt in
            isBefore aptStart (end_ slot) && isAfter aptEnd (start slot))
         appointments.

End DayView.

(** ** Placement in the week view (WeekView.tsx) *)

Module WeekView.

(** [Array.from({ length: 7 }, (_, i) => addDays(weekStartDate, i))]. *)
Definition weekDays (weekStartDate : Date) : list Date :=
  map (fun i => addDays weekStartDate (Z.of_nat i)) (seq 0 7).

(** The slots of the week grid are generated on [weekStartDate]. *)
Definition timeSlots (fuel : nat) (cfg : CalendarConfig) (weekStartDate : Date)
  : Completion (list TimeSlot) :=
  SlotGrid.timeSlots fuel cfg weekStartDate.

Definition isSameCalendarDay (a b : Date) : bool :=
  startOfDay a =? startOfDay b.

Definition getAppointmentsForDay (appointments : list Appointment)
    (date : Date) : list Appointment :=
  filter (fun apt => isSameCalendarDay (startTime apt) date) appointments.

Definition getAppointmentsForDayAndSlot (cfg : CalendarConfig)
    (appointments : list Appointment) (date : Date) (slotStart : Date)
  : list Appointment :=
  let slotEnd := setMinutes slotStart (getMinutes slotStart + slotDuration cfg) in
  filter (fun apt =>
            let aptStart := startTime apt in
            let aptEnd := endTime apt in
            isSameCalendarDay aptStart date
            && isBefore aptStart slotEnd && isAfter aptEnd slotStart)
         appointments.

(** The cell rendered at row [slot] and column [day] of the table. *)
Definition cell (cfg : CalendarConfig) (appointments : list Appointment)
    (day : Date) (slot : TimeSlot) : list Appointment :=
  getAppointmentsForDayAndSlot cfg appointments day (start slot).

End WeekView.

(** ** The hook [useAppointments] *)

(** [Array.prototype.sort(compareFn)] orders the array by [compareFn] and is
    stable: elements that compare equal keep their relative order.  It is
    modelled by a stable insertion sort. *)
Fixpoint insert {A : Type} (compareFn : A -> A -> Z) (x : A) (l : list A)
  : list A :=
  match l with
  | [] => [x]
  | y :: l' => if compareFn x y <=? 0 then x :: y :: l'
               else y :: insert compareFn x l'
  end.

Fixpoint array_sort {A : Type} (compareFn : A -> A -> Z) (l : list A)
  : list A :=
  match l with
  | [] => []
  | x :: l' => insert compareFn x (array_sort compareFn l')
  end.

Module UseAppointments.

Record UseAppointmentsParams : Type := mkParams
  { doctorId : string;
    date : Date;
    startDate : option Date;
    endDate : option Date }.

(** A call of the appointment service returns or throws. *)
Inductive ServiceResult (A : Type) : Type :=
| Returns (a : A)
| Throws (e : Error).
Arguments Returns {A} a.
Arguments Throws {A} e.

(** The interface of [appointmentService] ([@/services/appointmentService]
    is not among the sources; the hook is stated for every service). *)
Record AppointmentService : Type := mkService
  { getAppointmentsByDoctorAndDateRange :
      string -> Date -> Date -> ServiceResult (list Appointment);
    getAppointmentsByDoctorAndDate :
      string -> Date -> ServiceResult (list Appointment) }.

(** The three [useState] cells, with their initial values. *)
Record HookState : Type := mkHookState
  { appointments : list Appointment;
    loading : bool;
    error : option Error }.

Definition initialState : HookState :=
  {| appointments := []; loading := true; error := None |}.

(** Statements over the hook state that may throw. *)
Definition Eff (A : Type) : Type := HookState -> Completion A * HookState.

Definition ret {A : Type} (a : A) : Eff A := fun s => (Normal a, s).

Definition bind {A B : Type} (m : Eff A) (k : A -> Eff B) : Eff B :=
  fun s =>
    match m s with
    | (Normal a, s') => k a s'
    | (Throw e, s') => (Throw e, s')
    | (OutOfFuel, s') => (OutOfFuel, s')
    end.

Notation "x <- m ;; k" := (bind m (fun x => k))
  (at level 61, m at next level, right associativity).
Notation "m ;; k" := (bind m (fun _ => k))
  (at level 61, right associativity).

Definition call {A : Type} (r : ServiceResult A) : Eff A :=
  fun s => match r with
           | Returns a => (Normal a, s)
           | Throws e => (Throw e, s)
           end.

Definition setAppointments (data : list Appointment) : Eff unit :=
  fun s => (Normal tt,
            {| appointments := data; loading := loading s; error := error s |}).

Definition setLoading (b : bool) : Eff unit :=
  fun s => (Normal tt,
            {| appointments := appointments s; loading := b; error := error s |}).

Definition setError (e : option Error) : Eff unit :=
  fun s => (Normal tt,
            {| appointments := appointments s; loading := loading s; error := e |}).

(** [try { body } catch (e) { handler(e) } finally { fin }]: the handler
    runs when the body throws; [fin] always runs, and its own completion
    wins when it is not normal. *)
Definition try_catch_finally (body : Eff unit) (handler : Error -> Eff unit)
    (fin : Eff unit) : Eff unit :=
  fun s =>
    let r := match body s with
             | (Throw e, s') => handler e s'
             | r => r
             end in
    match fin (snd r) with
    | (Normal _, s'') => (fst r, s'')
    | (c, s'') => (c, s'')
    end.

(** [(a, b) => new Date(a.startTime).getTime() - new Date(b.startTime).getTime()] *)
Definition byStartTime (a b : Appointment) : Z := startTime a - startTime b.

Section Hook.

Variable appointmentService : AppointmentService.

(** The body of the [useEffect] of the hook. *)
Definition fetchEffect (params : UseAppointmentsParams) : Eff unit :=
  setLoading true ;;
  setError None ;;
  try_catch_finally
    (data <- match startDate params, endDate params with
             | Some startDate, Some endDate =>
                 call (getAppointmentsByDoctorAndDateRange appointmentService
                         (doctorId params) startDate endDate)
             | _, _ =>
                 call (getAppointmentsByDoctorAndDate appointmentService
                         (doctorId params) (date params))
             end ;;
     let data := array_sort byStartTime data in
     setAppointments data)
    (fun e => setError (Some e))
    (setLoading false).

(** The service call the effect makes for [params]. *)
Definition query (params : UseAppointmentsParams)
  : ServiceResult (list Appointment) :=
  match startDate params, endDate params with
  | Some startDate, Some endDate =>
      getAppointmentsByDoctorAndDateRange appointmentService
        (doctorId params) startDate endDate
  | _, _ =>
      getAppointmentsByDoctorAndDate appointmentService
        (doctorId params) (date params)
  end.

(** The state the hook exposes once the effect for [params] has run. *)
Definition afterEffect (s : HookState) (params : UseAppointmentsParams)
  : HookState :=
  snd (fetchEffect params s).

(** The effect runs once for each change of its dependencies, in order. *)
Definition afterEffects (s : HookState) (changes : list UseAppointmentsParams)
  : HookState :=
  fold_left afterEffect changes s.

End Hook.

End UseAppointments.

(** ** The query window of ScheduleView.tsx *)

Module ScheduleView.

Inductive CalendarView : Type := day | week.

Record Selection : Type := mkSelection
  { selectedDoctorId : string;
    selectedDate : Date;
    view : CalendarView }.

(** [startOfWeek(selectedDate, { weekStartsOn: 1 })] *)
Definition weekStart (selectedDate : Date) : Date := startOfWeek selectedDate 1.

(** The argument [ScheduleView] passes to [useAppointments]. *)
Definition hookParams (sel : Selection) : UseAppointments.UseAppointmentsParams :=
  {| UseAppointments.doctorId := selectedDoctorId sel;
     UseAppointments.date := selectedDate sel;
     UseAppointments.startDate :=
       match view sel with
       | week => Some (weekStart (selectedDate sel))
       | day => None
       end;
     UseAppointments.endDate :=
       match view sel with
       | week => Some (addDays (weekStart (selectedDate sel)) 6)
       | day => None
       end |}.

(** The state exposed after a sequence of selection changes. *)
Definition afterSelections (svc : UseAppointments.AppointmentService)
    (s : UseAppointments.HookState) (sels : list Selection)
  : UseAppointments.HookState :=
  UseAppointments.afterEffects svc s (map hookParams sels).

End ScheduleView.

(** ** The appointment card and the rendered grids *)

Module AppointmentCard.



End AppointmentCard.

Module Render.

(** The rows of the day timeline: [timeSlots.map(slot => ...)] with the cards
    of [getAppointmentsForSlot(slot)]. *)
Definition dayRows (appointments : list Appointment) (timeSlots : list TimeSlot)
  : list (TimeSlot * list Appointment) :=
  map (fun slot => (slot, DayView.getAppointmentsForSlot appointments slot))
      timeSlots.

(** The body of the week table: a row for each slot, a cell for each day of
    [weekDays] with the cards of [getAppointmentsForDayAndSlot(day, slot.start)]. *)
Definition weekRows (cfg : CalendarConfig) (appointments : list Appointment)
    (weekStartDate : Date) (timeSlots : list TimeSlot)
  : list (TimeSlot * list (Date * list Appointment)) :=
  map (fun slot =>
         (slot,
          map (fun day =>
                 (day, WeekView.getAppointmentsForDayAndSlot cfg appointments
                         day (start slot)))
              (WeekView.weekDays weekStartDate)))
      timeSlots.

(** What the calendar area of [ScheduleView] can hold. *)
Inductive Panel : Type :=
| LoadingPanel
| ErrorPanel
| DayViewPanel (appointments : list Appointment) (date : Date)
| WeekViewPanel (appointments : list Appointment) (weekStartDate : Date).

(** [{loading && ...} {error && ...} {!loading && !error && (view === 'day' ?
    <DayView .../> : <WeekView .../>)}] *)
Definition calendarArea (sel : ScheduleView.Selection)
    (s : UseAppointments.HookState) : list Panel :=
  (if UseAppointments.loading s then [LoadingPanel] else [])
  ++ (match UseAppointments.error s with
      | Some _ => [ErrorPanel]
      | None => []
      end)
  ++ (if negb (UseAppointments.loading s)
         && match UseAppointments.error s with
            | Some _ => false
            | None => true
            end
      then [match ScheduleView.view sel with
            | ScheduleView.day =>
                DayViewPanel (UseAppointments.appointments s)
                  (ScheduleView.selectedDate sel)
            | ScheduleView.week =>
                WeekViewPanel (UseAppointments.appointments s)
                  (ScheduleView.weekStart (ScheduleView.selectedDate sel))
            end]
      else []).

End Render.

(** ** Notions used in the statements *)

(** The slot of [slotDuration] minutes that starts at [t]. *)
Definition slotAt (cfg : CalendarConfig) (t : Date) : TimeSlot :=
  {| start := t;
     end_ := t + slotDuration cfg * MS_PER_MINUTE;
     label := formatHHmm t |}.

(** The number of rounds of the inner loop: the minutes 0, d, 2d, ... below 60. *)
Definition slotsPerHour (cfg : CalendarConfig) : nat :=
  Z.to_nat (59 / slotDuration cfg + 1).

(** The number of rounds of the outer loop. *)
Definition hoursShown (cfg : CalendarConfig) : nat :=
  Z.to_nat (endHour cfg - startHour cfg).

(** The slots of one hour, and of all hours, in the order they are pushed. *)
Definition hourRow (cfg : CalendarConfig) (date : Date) (q : nat) : list TimeSlot :=
  map (fun i => SlotGrid.makeSlot cfg date (startHour cfg + Z.of_nat q)
                  (Z.of_nat i * slotDuration cfg))
      (seq 0 (slotsPerHour cfg)).

Definition hourRows (cfg : CalendarConfig) (date : Date) : list TimeSlot :=
  flat_map (hourRow cfg date) (seq 0 (hoursShown cfg)).

(** The [i]-th slot of a grid whose slot duration divides the hour: it starts
    [i] slot durations after [startHour]:00 of the anchor date. *)
Definition nthSlot (cfg : CalendarConfig) (date : Date) (i : nat) : TimeSlot :=
  slotAt cfg (setHours date (startHour cfg) 0 0 0
              + Z.of_nat i * slotDuration cfg * MS_PER_MINUTE).

(** Fuel that lets both loops finish when [slotDuration] is positive. *)
Definition enoughFuel (cfg : CalendarConfig) : nat :=
  S (Nat.max 60 (hoursShown cfg)).

Definition contiguous (slots : list TimeSlot) : Prop :=
  forall i s1 s2,
    nth_error slots i = Some s1 -> nth_error slots (S i) = Some s2 ->
    end_ s1 = start s2.

Definition non_overlapping (slots : list TimeSlot) : Prop :=
  forall i j s1 s2,
    (i < j)%nat -> nth_error slots i = Some s1 -> nth_error slots j = Some s2 ->
    start s1 < end_ s1 /\ end_ s1 <= start s2.

(** [floor((endHour - startHour) * 60 / slotDuration)] *)
Definition slotCount (cfg : CalendarConfig) : Z :=
  (endHour cfg - startHour cfg) * 60 / slotDuration cfg.

(** No slot ends after [endHour]:00 of the anchor date. *)
Definition within_window (cfg : CalendarConfig) (date : Date)
    (slots : list TimeSlot) : Prop :=
  forall s, In s slots -> end_ s <= setHours date (endHour cfg) 0 0 0.

(** The slot grid property as the specification states it. *)
Definition slot_grid_claim (cfg : CalendarConfig) (date : Date)
    (slots : list TimeSlot) : Prop :=
  contiguous slots /\ non_overlapping slots
  /\ Z.of_nat (List.length slots) = slotCount cfg
  /\ within_window cfg date slots.

(** The week-grid placement as the specification words it: the appointments
    that start on the calendar day of the column and overlap the slot taken
    on that day (the slot keeps its time of day). *)
Definition slotOnDay (day : Date) (slot : TimeSlot) : Date * Date :=
  let offset := startOfDay day - startOfDay (start slot) in
  (start slot + offset, end_ slot + offset).

Definition specified_cell (appointments : list Appointment) (day : Date)
    (slot : TimeSlot) : list Appointment :=
  filter (fun apt =>
            WeekView.isSameCalendarDay (startTime apt) day
            && (startTime apt <? snd (slotOnDay day slot))
            && (endTime apt >? fst (slotOnDay day slot)))
         appointments.

(** Ascending by start time. *)
Definition sortedByStartTime (l : list Appointment) : Prop :=
  StronglySorted (fun a b => startTime a <= startTime b) l.

(** The appointments of [l] that start at [t], in the order of [l]. *)
Definition startingAt (t : Date) (l : list Appointment) : list Appointment :=
  filter (fun a => startTime a =? t) l.

(** The start of the grid, [startHour]:00 of the anchor date, and the
    length of a slot in milliseconds. *)
Definition gridStart (cfg : CalendarConfig) (date : Date) : Date :=
  setHours date (startHour cfg) 0 0 0.

Definition gridEnd (cfg : CalendarConfig) (date : Date) : Date :=
  setHours date (endHour cfg) 0 0 0.

Definition slotMs (cfg : CalendarConfig) : Z :=
  slotDuration cfg * MS_PER_MINUTE.

(** The slot pushed at position [n] of the list, for any slot duration:
    hour [n / slotsPerHour] of the grid, round [n mod slotsPerHour] of the
    inner loop. *)
Definition slotAtPosition (cfg : CalendarConfig) (date : Date) (n : nat)
  : TimeSlot :=
  SlotGrid.makeSlot cfg date
    (startHour cfg + Z.of_nat (n / slotsPerHour cfg))
    (Z.of_nat (n mod slotsPerHour cfg) * slotDuration cfg).

(** Starts strictly ascending along the list. *)
Definition starts_ascending (slots : list TimeSlot) : Prop :=
  forall i j s1 s2,
    (i < j)%nat -> nth_error slots i = Some s1 -> nth_error slots j = Some s2 ->
    start s1 < start s2.

(** ** Inputs of the examples *)

Definition slot_0900 : TimeSlot :=
  SlotGrid.makeSlot DEFAULT_CALENDAR_CONFIG (ymd 2024 1 1) 9 0.

Definition apt_at (name : string) (startTime endTime : Date) : Appointment :=
  {| apt_id := name; patientId := "p1"; doctorId := "d1"; apt_type := "checkup";
     startTime := startTime; endTime := endTime |}.

(** A configuration whose slot duration does not divide the hour. *)
Definition config_45 : CalendarConfig :=
  {| startHour := 8; endHour := 10; slotDuration := 45 |}.

(** A configuration with a slot duration of zero. *)
Definition config_0 : CalendarConfig :=
  {| startHour := 8; endHour := 18; slotDuration := 0 |}.

(** An appointment that ends five minutes before it starts. *)
Definition apt_malformed : Appointment :=
  apt_at "m1" (localDate 2024 1 1 9 15) (localDate 2024 1 1 9 10).

(** An appointment on Tuesday 2024-01-02 from 09:00 to 09:30. *)
Definition apt_tuesday : Appointment :=
  apt_at "t1" (localDate 2024 1 2 9 0) (localDate 2024 1 2 9 30).

(** Two appointments of 2024-01-01 that start at 10:00 and one at 09:00. *)
Definition apt_ten_a : Appointment :=
  apt_at "a" (localDate 2024 1 1 10 0) (localDate 2024 1 1 10 30).

Definition apt_ten_b : Appointment :=
  apt_at "b" (localDate 2024 1 1 10 0) (localDate 2024 1 1 10 45).

Definition apt_nine : Appointment :=
  apt_at "c" (localDate 2024 1 1 9 0) (localDate 2024 1 1 9 30).

(** A store that knows the doctor [d1] and fails for every other id. *)
Definition example_service : UseAppointments.AppointmentService :=
  {| UseAppointments.getAppointmentsByDoctorAndDateRange :=
       fun doctorId _ _ =>
         if String.eqb doctorId "d1"
         then UseAppointments.Returns [apt_ten_a; apt_nine; apt_ten_b]
         else UseAppointments.Throws "store unavailable";
     UseAppointments.getAppointmentsByDoctorAndDate :=
       fun doctorId _ =>
         if String.eqb doctorId "d1"
         then UseAppointments.Returns [apt_ten_a; apt_nine; apt_ten_b]
         else UseAppointments.Throws "store unavailable" |}.

Definition select_d1 : ScheduleView.Selection :=
  {| ScheduleView.selectedDoctorId := "d1";
     ScheduleView.selectedDate := ymd 2024 1 1;
     ScheduleView.view := ScheduleView.day |}.

Definition select_d2 : ScheduleView.Selection :=
  {| ScheduleView.selectedDoctorId := "d2";
     ScheduleView.selectedDate := ymd 2024 1 2;
     ScheduleView.view := ScheduleView.day |}.

(** The appointment of the scenario of the specification, 09:15 to 09:45. *)
Definition apt_quarter_past : Appointment :=
  apt_at "q1" (localDate 2024 1 1 9 15) (localDate 2024 1 1 9 45).

(** A store that returns its appointments in ascending order of start. *)
Definition sorted_service : UseAppointments.AppointmentService :=
  {| UseAppointments.getAppointmentsByDoctorAndDateRange :=
       fun _ _ _ => UseAppointments.Returns [apt_nine; apt_ten_a; apt_ten_b];
     UseAppointments.getAppointmentsByDoctorAndDate :=
       fun _ _ => UseAppointments.Returns [apt_nine; apt_ten_a; apt_ten_b] |}.

(** * Properties *)

(** ** Date arithmetic *)

Section DateFacts.

Lemma startOfDay_le (d : Date) : startOfDay d <= d < startOfDay d + MS_PER_DAY.
Proof.
  unfold startOfDay, MS_PER_DAY.
  pose proof (Z.mod_pos_bound d 86400000 ltac:(lia)). lia.
Qed.

Lemma startOfDay_idem (d : Date) : startOfDay (startOfDay d) = startOfDay d.
Proof.
  unfold startOfDay, MS_PER_DAY.
  replace (d - d mod 86400000) with (86400000 * (d / 86400000))
    by (pose proof (Z.div_mod d 86400000 ltac:(lia)); lia).
  rewrite Z.mul_comm, Z.mod_mul by lia. lia.
Qed.

Lemma startOfDay_addDays (d : Date) (n : Z) :
  startOfDay (addDays d n) = addDays (startOfDay d) n.
Proof.
  unfold startOfDay, addDays.
  rewrite Z.mod_add by (unfold MS_PER_DAY; lia). lia.
Qed.

(** [end.setMinutes(end.getMinutes() + n)] moves a date by [n] minutes. *)
Lemma setMinutes_getMinutes (d : Date) (n : Z) :
  setMinutes d (getMinutes d + n) = d + n * MS_PER_MINUTE.
Proof. unfold setMinutes. lia. Qed.

Lemma isBefore_lt (a b : Date) : isBefore a b = true <-> a < b.
Proof. unfold isBefore. apply Z.ltb_lt. Qed.

Lemma isAfter_gt (a b : Date) : isAfter a b = true <-> a > b.
Proof. unfold isAfter. rewrite Z.gtb_ltb, Z.ltb_lt. lia. Qed.

End DateFacts.

(** ** Placement in the day view *)

Lemma day_cell_In (appointments : list Appointment) (S : TimeSlot)
    (A : Appointment) :
  In A (DayView.getAppointmentsForSlot appointments S) <->
  In A appointments /\ startTime A < end_ S /\ endTime A > start S.
Proof.
  unfold DayView.getAppointmentsForSlot. rewrite filter_In. cbv zeta.
  rewrite andb_true_iff, isBefore_lt, isAfter_gt. tauto.
Qed.

(** C1. In the day view an appointment of the list is placed in a slot
    exactly when it starts before the end of the slot and ends after its
    start; an appointment that ends where the slot starts, or starts where
    the slot ends, is not placed in it.  This holds for every slot, so for
    every generated one. *)
Theorem day_placement_half_open :
  forall (appointments : list Appointment) (S : TimeSlot) (A : Appointment),
    (In A (DayView.getAppointmentsForSlot appointments S) <->
       In A appointments /\ startTime A < end_ S /\ endTime A > start S)
    /\ (endTime A = start S ->
        ~ In A (DayView.getAppointmentsForSlot appointments S))
    /\ (startTime A = end_ S ->
        ~ In A (DayView.getAppointmentsForSlot appointments S)).
Proof.
  intros appointments S A. pose proof (day_cell_In appointments S A) as Hiff.
  split; [exact Hiff|]. split; intros Heq Hin; apply Hiff in Hin; lia.
Qed.

(** An appointment that ends at 09:00 is not placed in the slot that starts
    at 09:00, and one that starts at 09:30 is not placed in the slot that ends
    at 09:30; one from 09:15 to 09:45 is. *)
Example day_placement_boundaries :
  DayView.getAppointmentsForSlot
    [apt_at "before" (localDate 2024 1 1 8 30) (localDate 2024 1 1 9 0);
     apt_at "inside" (localDate 2024 1 1 9 15) (localDate 2024 1 1 9 45);
     apt_at "after" (localDate 2024 1 1 9 30) (localDate 2024 1 1 10 0)]
    slot_0900
  = [apt_at "inside" (localDate 2024 1 1 9 15) (localDate 2024 1 1 9 45)].
Proof. reflexivity. Qed.

(** ** Slot generation *)

Section SlotGridFacts.

Variable cfg : CalendarConfig.
Variable date : Date.

Lemma makeSlot_slotAt (hour minute : Z) :
  SlotGrid.makeSlot cfg date hour minute =
  slotAt cfg (startOfDay date + hour * MS_PER_HOUR + minute * MS_PER_MINUTE).
Proof.
  unfold SlotGrid.makeSlot, slotAt. cbv zeta.
  rewrite setMinutes_getMinutes. unfold setHours.
  repeat rewrite Z.add_0_r. reflexivity.
Qed.

Lemma slotsPerHour_pos : 0 < slotDuration cfg ->
  Z.of_nat (slotsPerHour cfg) = 59 / slotDuration cfg + 1.
Proof.
  intros Hd. unfold slotsPerHour.
  pose proof (Z.div_pos 59 (slotDuration cfg) ltac:(lia) Hd). lia.
Qed.

(** Round [k] of the inner loop is entered exactly when [k < slotsPerHour]. *)
Lemma minute_cond (k : nat) : 0 < slotDuration cfg ->
  (Z.of_nat k * slotDuration cfg <? 60) = (k <? slotsPerHour cfg)%nat.
Proof.
  intros Hd. pose proof (slotsPerHour_pos Hd) as Hc.
  pose proof (Z.div_mod 59 (slotDuration cfg) ltac:(lia)) as Hdm.
  pose proof (Z.mod_pos_bound 59 (slotDuration cfg) Hd) as Hm.
  destruct (Nat.ltb_spec k (slotsPerHour cfg)) as [Hlt|Hge].
  - apply Z.ltb_lt. nia.
  - apply Z.ltb_ge. nia.
Qed.

(** The inner loop, entered at round [k] with [j] rounds to go. *)
Lemma inner_loop (hour : Z) : 0 < slotDuration cfg ->
  forall (j k fuel : nat) (acc : list TimeSlot),
    (k + j = slotsPerHour cfg)%nat -> (j < fuel)%nat ->
    for_loop fuel (fun minute => minute <? 60)
      (fun minute => minute + slotDuration cfg)
      (fun minute slots =>
         Normal (slots ++ [SlotGrid.makeSlot cfg date hour minute]))
      (Z.of_nat k * slotDuration cfg) acc
    = Normal (acc ++ map (fun i => SlotGrid.makeSlot cfg date hour
                                     (Z.of_nat i * slotDuration cfg))
                       (seq k j)).
Proof.
  intros Hd. induction j as [|j IH]; intros k fuel acc Hk Hfuel.
  - destruct fuel as [|fuel]; [lia|]. simpl for_loop.
    rewrite (minute_cond k Hd).
    destruct (Nat.ltb_spec k (slotsPerHour cfg)); [lia|].
    simpl. now rewrite app_nil_r.
  - destruct fuel as [|fuel]; [lia|]. simpl for_loop.
    rewrite (minute_cond k Hd).
    destruct (Nat.ltb_spec k (slotsPerHour cfg)); [|lia].
    replace (Z.of_nat k * slotDuration cfg + slotDuration cfg)
      with (Z.of_nat (S k) * slotDuration cfg) by lia.
    rewrite IH by lia. simpl seq. simpl map.
    now rewrite <- app_assoc.
Qed.

Lemma hour_cond (q : nat) :
  (startHour cfg + Z.of_nat q <? endHour cfg) = (q <? hoursShown cfg)%nat.
Proof.
  unfold hoursShown.
  destruct (Nat.ltb_spec q (Z.to_nat (endHour cfg - startHour cfg))).
  - apply Z.ltb_lt. lia.
  - apply Z.ltb_ge. lia.
Qed.

(** The outer loop, entered at hour [startHour + q] with [j] hours to go;
    the inner loop always runs on the fuel [fuel2]. *)
Lemma outer_loop : 0 < slotDuration cfg ->
  forall (fuel2 : nat), (slotsPerHour cfg < fuel2)%nat ->
  forall (j q fuel : nat) (acc : list TimeSlot),
    (q + j = hoursShown cfg)%nat -> (j < fuel)%nat ->
    for_loop fuel (fun hour => hour <? endHour cfg) Z.succ
      (fun hour slots =>
         for_loop fuel2 (fun minute => minute <? 60)
           (fun minute => minute + slotDuration cfg)
           (fun minute slots =>
              Normal (slots ++ [SlotGrid.makeSlot cfg date hour minute]))
           0 slots)
      (startHour cfg + Z.of_nat q) acc
    = Normal (acc ++ flat_map (hourRow cfg date) (seq q j)).
Proof.
  intros Hd fuel2 Hfuel2.
  induction j as [|j IH]; intros q fuel acc Hq Hfuel.
  - destruct fuel as [|fuel]; [lia|]. simpl for_loop.
    rewrite hour_cond. destruct (Nat.ltb_spec q (hoursShown cfg)); [lia|].
    simpl. now rewrite app_nil_r.
  - destruct fuel as [|fuel]; [lia|]. simpl for_loop.
    rewrite hour_cond. destruct (Nat.ltb_spec q (hoursShown cfg)); [|lia].
    pose proof (@inner_loop (startHour cfg + Z.of_nat q) Hd
                  (slotsPerHour cfg) 0%nat fuel2 acc eq_refl Hfuel2) as Hin.
    simpl Z.of_nat in Hin. rewrite Z.mul_0_l in Hin. rewrite Hin.
    replace (Z.succ (startHour cfg + Z.of_nat q))
      with (startHour cfg + Z.of_nat (S q)) by lia.
    rewrite IH by lia. simpl seq. simpl flat_map.
    unfold hourRow at 2. now rewrite <- app_assoc.
Qed.

Lemma slotsPerHour_le_60 : 0 < slotDuration cfg -> (slotsPerHour cfg <= 60)%nat.
Proof.
  intros Hd. pose proof (slotsPerHour_pos Hd).
  pose proof (Z.div_le_upper_bound 59 (slotDuration cfg) 59 Hd ltac:(nia)). lia.
Qed.

(** With a positive slot duration the generator returns, on enough fuel,
    the rows of all hours. *)
Lemma timeSlots_returns (fuel : nat) :
  0 < slotDuration cfg -> (enoughFuel cfg <= fuel)%nat ->
  SlotGrid.timeSlots fuel cfg date = Normal (hourRows cfg date).
Proof.
  intros Hd Hfuel. unfold SlotGrid.timeSlots, hourRows, enoughFuel in *.
  pose proof (slotsPerHour_le_60 Hd).
  pose proof (@outer_loop Hd fuel ltac:(lia) (hoursShown cfg) 0%nat fuel []
                eq_refl ltac:(lia)) as Hout.
  simpl Z.of_nat in Hout. rewrite Z.add_0_r in Hout. exact Hout.
Qed.

End SlotGridFacts.

(** *** Grids whose slot duration divides the hour *)

Lemma map_seq_from {A : Type} (f : nat -> A) (c a : nat) :
  map f (seq a c) = map (fun i => f (a + i)%nat) (seq 0 c).
Proof.
  rewrite <- (Nat.add_0_r a) at 1. generalize 0%nat as b.
  induction c as [|c IH]; intros b; simpl; [reflexivity|].
  f_equal. rewrite <- IH. f_equal. f_equal. lia.
Qed.

Lemma flat_map_rows {A : Type} (f : nat -> A) (c H : nat) :
  flat_map (fun q => map (fun i => f (q * c + i)%nat) (seq 0 c)) (seq 0 H)
  = map f (seq 0 (H * c)).
Proof.
  induction H as [|H IH]; [reflexivity|].
  rewrite seq_S, flat_map_app, IH. simpl flat_map. rewrite app_nil_r.
  replace (S H * c)%nat with (H * c + c)%nat by lia.
  rewrite seq_app, map_app. f_equal.
  simpl. now rewrite (map_seq_from f c (H * c)).
Qed.

Lemma nth_error_map_seq {A : Type} (f : nat -> A) (n i : nat) (x : A) :
  nth_error (map f (seq 0 n)) i = Some x -> (i < n)%nat /\ x = f i.
Proof.
  intros Hnth.
  assert (Hlt : (i < n)%nat).
  { assert (Hn : nth_error (map f (seq 0 n)) i <> None) by congruence.
    apply nth_error_Some in Hn.
    now rewrite length_map, length_seq in Hn. }
  split; [exact Hlt|].
  rewrite nth_error_map, nth_error_seq in Hnth.
  destruct (Nat.ltb_spec i n); [|lia]. simpl in Hnth. congruence.
Qed.

Section DividingDuration.

Variable cfg : CalendarConfig.
Variable date : Date.
Hypothesis duration_pos : 0 < slotDuration cfg.
Hypothesis duration_divides : 60 mod slotDuration cfg = 0.

Lemma slotsPerHour_exact :
  Z.of_nat (slotsPerHour cfg) * slotDuration cfg = 60.
Proof.
  rewrite (slotsPerHour_pos cfg duration_pos).
  pose proof (Z.div_mod 60 (slotDuration cfg) ltac:(lia)) as H60.
  rewrite duration_divides, Z.add_0_r in H60.
  pose proof (Z.div_mod 59 (slotDuration cfg) ltac:(lia)) as H59.
  pose proof (Z.mod_pos_bound 59 (slotDuration cfg) duration_pos) as Hm.
  assert (59 / slotDuration cfg + 1 = 60 / slotDuration cfg) by nia.
  nia.
Qed.

Lemma hourRows_nthSlot :
  hourRows cfg date
  = map (nthSlot cfg date) (seq 0 (hoursShown cfg * slotsPerHour cfg)).
Proof.
  unfold hourRows. rewrite <- flat_map_rows.
  apply flat_map_ext. intros q. unfold hourRow. apply map_ext. intros i.
  rewrite makeSlot_slotAt. unfold nthSlot, setHours. f_equal.
  pose proof slotsPerHour_exact as Hc. unfold MS_PER_HOUR, MS_PER_MINUTE.
  rewrite Nat2Z.inj_add, Nat2Z.inj_mul.
  assert (Hq : Z.of_nat q * Z.of_nat (slotsPerHour cfg) * slotDuration cfg
               = Z.of_nat q * 60) by (rewrite <- Z.mul_assoc, Hc; reflexivity).
  lia.
Qed.

Lemma grid_length : startHour cfg < endHour cfg ->
  Z.of_nat (hoursShown cfg * slotsPerHour cfg) = slotCount cfg.
Proof.
  intros Hh. unfold slotCount. rewrite Nat2Z.inj_mul.
  replace ((endHour cfg - startHour cfg) * 60)
    with ((endHour cfg - startHour cfg) * Z.of_nat (slotsPerHour cfg)
          * slotDuration cfg)
    by (rewrite <- Z.mul_assoc, slotsPerHour_exact; reflexivity).
  rewrite Z.div_mul by lia. unfold hoursShown. lia.
Qed.

Lemma nthSlot_contiguous (i : nat) :
  end_ (nthSlot cfg date i) = start (nthSlot cfg date (S i)).
Proof.
  unfold nthSlot, slotAt, MS_PER_MINUTE. cbn [start end_]. lia.
Qed.

Lemma nthSlot_start_mono (i j : nat) : (i <= j)%nat ->
  start (nthSlot cfg date i) <= start (nthSlot cfg date j).
Proof.
  intros Hij. unfold nthSlot, slotAt, MS_PER_MINUTE. cbn [start end_]. nia.
Qed.

Lemma nthSlot_end_bound (i : nat) : startHour cfg < endHour cfg ->
  (i < hoursShown cfg * slotsPerHour cfg)%nat ->
  end_ (nthSlot cfg date i) <= setHours date (endHour cfg) 0 0 0.
Proof.
  intros Hh Hi. rewrite nthSlot_contiguous.
  unfold nthSlot, slotAt, setHours, MS_PER_HOUR, MS_PER_MINUTE. cbn [start end_].
  pose proof slotsPerHour_exact as Hc.
  assert (Hn : Z.of_nat (S i) <=
               (endHour cfg - startHour cfg) * Z.of_nat (slotsPerHour cfg)).
  { unfold hoursShown in Hi.
    apply Nat2Z.inj_lt in Hi. rewrite Nat2Z.inj_mul, Z2Nat.id in Hi by lia. lia. }
  nia.
Qed.

(** The grid has the shape the specification states. *)
Lemma dividing_grid_claim : startHour cfg < endHour cfg ->
  slot_grid_claim cfg date (hourRows cfg date).
Proof.
  intros Hh. rewrite hourRows_nthSlot.
  split; [|split; [|split]].
  - intros i s1 s2 H1 H2.
    apply nth_error_map_seq in H1 as [_ ->].
    apply nth_error_map_seq in H2 as [_ ->].
    apply nthSlot_contiguous.
  - intros i j s1 s2 Hij H1 H2.
    apply nth_error_map_seq in H1 as [_ ->].
    apply nth_error_map_seq in H2 as [_ ->].
    split.
    + rewrite nthSlot_contiguous.
      unfold nthSlot, slotAt, MS_PER_MINUTE. cbn [start end_]. nia.
    + rewrite nthSlot_contiguous. apply nthSlot_start_mono. lia.
  - rewrite length_map, length_seq. now apply grid_length.
  - intros s Hin. apply in_map_iff in Hin as [i [<- Hi]].
    apply in_seq in Hi. apply nthSlot_end_bound; [exact Hh|lia].
Qed.

End DividingDuration.

(** C3 (amended). For every configuration with [endHour > startHour] and a
    positive slot duration that divides 60, and every anchor date, the
    generator of the day view and of the week view returns a slot sequence
    that is contiguous, non-overlapping, has exactly
    [floor((endHour - startHour) * 60 / slotDuration)] slots, and whose slots
    all end by [endHour]:00 of that date. *)
Theorem slot_grid_when_duration_divides_hour :
  forall (cfg : CalendarConfig) (date : Date),
    0 < slotDuration cfg -> 60 mod slotDuration cfg = 0 ->
    startHour cfg < endHour cfg ->
    exists slots,
      (forall fuel, (enoughFuel cfg <= fuel)%nat ->
         DayView.timeSlots fuel cfg date = Normal slots
         /\ WeekView.timeSlots fuel cfg date = Normal slots)
      /\ slot_grid_claim cfg date slots.
Proof.
  intros cfg date Hd Hdiv Hh. exists (hourRows cfg date). split.
  - intros fuel Hfuel. unfold DayView.timeSlots, WeekView.timeSlots.
    split; now apply timeSlots_returns.
  - now apply dividing_grid_claim.
Qed.

Lemma slot_grid_default_config :
  exists slots,
    (forall fuel, (enoughFuel DEFAULT_CALENDAR_CONFIG <= fuel)%nat ->
       DayView.timeSlots fuel DEFAULT_CALENDAR_CONFIG (ymd 2024 1 1)
       = Normal slots
       /\ WeekView.timeSlots fuel DEFAULT_CALENDAR_CONFIG (ymd 2024 1 1)
          = Normal slots)
    /\ slot_grid_claim DEFAULT_CALENDAR_CONFIG (ymd 2024 1 1) slots.
Proof.
  apply (slot_grid_when_duration_divides_hour
           DEFAULT_CALENDAR_CONFIG (ymd 2024 1 1));
    vm_compute; reflexivity.
Defined.

(** With a slot duration of 45 minutes and the hours 8 to 10 the generator
    returns four slots (08:00, 08:45, 09:00, 09:45) where the formula gives
    two, so the slot grid property stated for every valid configuration
    fails. *)
Lemma slot_grid_fails_for_45_minutes :
  0 < slotDuration config_45 /\ startHour config_45 < endHour config_45
  /\ exists slots,
       DayView.timeSlots 100 config_45 (ymd 2024 1 1) = Normal slots
       /\ map label slots = ["08:00"; "08:45"; "09:00"; "09:45"]
       /\ map (fun s => formatHHmm (end_ s)) slots
          = ["08:45"; "09:30"; "09:45"; "10:30"]
       /\ slotCount config_45 = 2
       /\ ~ slot_grid_claim config_45 (ymd 2024 1 1) slots.
Proof.
  split; [reflexivity|]. split; [reflexivity|].
  eexists. split; [vm_compute; reflexivity|].
  split; [reflexivity|]. split; [reflexivity|]. split; [reflexivity|].
  intros [_ [_ [Hlen _]]]. vm_compute in Hlen. discriminate Hlen.
Qed.

(** The scenario of the specification: hours 8 to 10 in 30-minute slots on
    2024-01-01 give the four slots 08:00 to 09:30, and an appointment from
    09:15 to 09:45 is placed in the third and the fourth only. *)
Example scenario_four_slots :
  let cfg := {| startHour := 8; endHour := 10; slotDuration := 30 |} in
  let apt := apt_at "a1" (localDate 2024 1 1 9 15) (localDate 2024 1 1 9 45) in
  exists slots,
    DayView.timeSlots 100 cfg (ymd 2024 1 1) = Normal slots
    /\ map label slots = ["08:00"; "08:30"; "09:00"; "09:30"]
    /\ map (fun s => List.length (DayView.getAppointmentsForSlot [apt] s)) slots
       = [0; 0; 1; 1]%nat.
Proof.
  eexists. split; [vm_compute; reflexivity|]. split; reflexivity.
Qed.

(** *** Non-positive slot durations *)

Lemma for_loop_no_throw {St : Type} (cond : Z -> bool) (next : Z -> Z)
    (body : Z -> St -> Completion St) :
  (forall i s e, body i s <> Throw e) ->
  forall fuel i s e, for_loop fuel cond next body i s <> Throw e.
Proof.
  intros Hbody. induction fuel as [|fuel IH]; intros i s e; simpl.
  - discriminate.
  - destruct (cond i); [|discriminate].
    destruct (body i s) eqn:Hb; [apply IH| |discriminate].
    exfalso. exact (Hbody _ _ _ Hb).
Qed.

(** Slot generation never throws, whatever the configuration. *)
Lemma timeSlots_no_throw (fuel : nat) (cfg : CalendarConfig) (date : Date)
    (e : Error) :
  SlotGrid.timeSlots fuel cfg date <> Throw e.
Proof.
  unfold SlotGrid.timeSlots. apply for_loop_no_throw.
  intros hour slots e'. apply for_loop_no_throw. discriminate.
Qed.

(** With a non-positive step the minute stays below 60 and the inner loop
    never finishes. *)
Lemma inner_loop_diverges (cfg : CalendarConfig) (date : Date) (hour : Z) :
  slotDuration cfg <= 0 ->
  forall (fuel : nat) (minute : Z) (acc : list TimeSlot),
    minute < 60 ->
    for_loop fuel (fun minute => minute <? 60)
      (fun minute => minute + slotDuration cfg)
      (fun minute slots =>
         Normal (slots ++ [SlotGrid.makeSlot cfg date hour minute]))
      minute acc
    = OutOfFuel.
Proof.
  intros Hd. induction fuel as [|fuel IH]; intros minute acc Hm; simpl.
  - reflexivity.
  - destruct (Z.ltb_spec minute 60); [|lia]. apply IH. lia.
Qed.

Lemma for_loop_S {St : Type} (fuel : nat) (cond : Z -> bool) (next : Z -> Z)
    (body : Z -> St -> Completion St) (i : Z) (s : St) :
  for_loop (S fuel) cond next body i s
  = if cond i then
      match body i s with
      | Normal s' => for_loop fuel cond next body (next i) s'
      | Throw e => Throw e
      | OutOfFuel => OutOfFuel
      end
    else Normal s.
Proof. reflexivity. Qed.

Lemma timeSlots_diverges (cfg : CalendarConfig) (date : Date) (fuel : nat) :
  slotDuration cfg <= 0 -> startHour cfg < endHour cfg ->
  SlotGrid.timeSlots fuel cfg date = OutOfFuel.
Proof.
  intros Hd Hh. unfold SlotGrid.timeSlots.
  destruct fuel as [|fuel]; [reflexivity|].
  rewrite for_loop_S.
  destruct (Z.ltb_spec (startHour cfg) (endHour cfg)); [|lia].
  now rewrite inner_loop_diverges by lia.
Qed.

Lemma timeSlots_no_hours (cfg : CalendarConfig) (date : Date) (fuel : nat) :
  endHour cfg <= startHour cfg ->
  SlotGrid.timeSlots (S fuel) cfg date = Normal [].
Proof.
  intros Hh. unfold SlotGrid.timeSlots. cbn [for_loop].
  destruct (Z.ltb_spec (startHour cfg) (endHour cfg)); [lia|reflexivity].
Qed.

(** C8 (amended). Slot generation validates nothing and never signals a
    configuration error.  With a non-positive slot duration it throws
    nothing: when [endHour > startHour] its inner loop does not finish, so no
    slot list is returned on any fuel, and when [endHour <= startHour] it
    returns the empty list. *)
Theorem nonpositive_duration_signals_nothing :
  forall (cfg : CalendarConfig) (date : Date),
    slotDuration cfg <= 0 ->
    (forall fuel e, DayView.timeSlots fuel cfg date <> Throw e)
    /\ (startHour cfg < endHour cfg ->
        forall fuel, DayView.timeSlots fuel cfg date = OutOfFuel)
    /\ (endHour cfg <= startHour cfg ->
        forall fuel, DayView.timeSlots (S fuel) cfg date = Normal []).
Proof.
  intros cfg date Hd. unfold DayView.timeSlots. split; [|split].
  - intros fuel e. apply timeSlots_no_throw.
  - intros Hh fuel. now apply timeSlots_diverges.
  - intros Hh fuel. now apply timeSlots_no_hours.
Qed.

Lemma zero_duration_default_hours :
  (forall fuel e, DayView.timeSlots fuel config_0 (ymd 2024 1 1) <> Throw e)
  /\ (startHour config_0 < endHour config_0 ->
      forall fuel, DayView.timeSlots fuel config_0 (ymd 2024 1 1) = OutOfFuel)
  /\ (endHour config_0 <= startHour config_0 ->
      forall fuel, DayView.timeSlots (S fuel) config_0 (ymd 2024 1 1) = Normal []).
Proof.
  apply (nonpositive_duration_signals_nothing config_0 (ymd 2024 1 1)).
  vm_compute. discriminate.
Defined.

(** With a slot duration of zero and the hours 8 to 18, slot generation
    signals no error on any fuel, and returns no slots either. *)
Lemma zero_duration_signals_no_error :
  slotDuration config_0 <= 0
  /\ ~ (exists fuel e,
          DayView.timeSlots fuel config_0 (ymd 2024 1 1) = Throw e)
  /\ ~ (exists fuel slots,
          DayView.timeSlots fuel config_0 (ymd 2024 1 1) = Normal slots).
Proof.
  split; [vm_compute; discriminate|]. unfold DayView.timeSlots. split.
  - intros [fuel [e H]]. exact (timeSlots_no_throw _ _ _ _ H).
  - intros [fuel [slots H]].
    rewrite timeSlots_diverges in H by (vm_compute; congruence).
    discriminate H.
Qed.

(** ** Placement in the week view *)

Lemma week_cell_In (cfg : CalendarConfig) (appointments : list Appointment)
    (day : Date) (S : TimeSlot) (A : Appointment) :
  In A (WeekView.cell cfg appointments day S) <->
  In A appointments /\ startOfDay (startTime A) = startOfDay day
  /\ startTime A < start S + slotDuration cfg * MS_PER_MINUTE
  /\ endTime A > start S.
Proof.
  unfold WeekView.cell, WeekView.getAppointmentsForDayAndSlot.
  cbv zeta. rewrite filter_In, !andb_true_iff, isBefore_lt, isAfter_gt.
  rewrite setMinutes_getMinutes. unfold WeekView.isSameCalendarDay.
  rewrite Z.eqb_eq. tauto.
Qed.

(** C4 (amended). Placement has no filter for malformed appointments and
    never fails: an appointment with [endTime <= startTime] is excluded from
    every slot except one that contains its end and its start strictly
    inside ([slot.start < endTime <= startTime < slot.end]); in such a slot
    it is placed like any other appointment, in the day view and (on the
    column of its day) in the week view. *)
Theorem malformed_placed_only_strictly_inside :
  forall (cfg : CalendarConfig) (appointments : list Appointment)
         (day : Date) (S : TimeSlot) (A : Appointment),
    endTime A <= startTime A ->
    (In A (DayView.getAppointmentsForSlot appointments S) <->
       In A appointments
       /\ start S < endTime A /\ endTime A <= startTime A
       /\ startTime A < end_ S)
    /\ (In A (WeekView.cell cfg appointments day S) <->
          In A appointments
          /\ startOfDay (startTime A) = startOfDay day
          /\ start S < endTime A /\ endTime A <= startTime A
          /\ startTime A < start S + slotDuration cfg * MS_PER_MINUTE).
Proof.
  intros cfg appointments day S A Hmal. split.
  - rewrite day_cell_In. intuition lia.
  - rewrite week_cell_In. intuition lia.
Qed.

Lemma malformed_placement_example :
  (In apt_malformed (DayView.getAppointmentsForSlot [apt_malformed] slot_0900)
   <-> In apt_malformed [apt_malformed]
       /\ start slot_0900 < endTime apt_malformed
       /\ endTime apt_malformed <= startTime apt_malformed
       /\ startTime apt_malformed < end_ slot_0900)
  /\ (In apt_malformed
        (WeekView.cell DEFAULT_CALENDAR_CONFIG [apt_malformed] (ymd 2024 1 1)
           slot_0900)
      <-> In apt_malformed [apt_malformed]
          /\ startOfDay (startTime apt_malformed) = startOfDay (ymd 2024 1 1)
          /\ start slot_0900 < endTime apt_malformed
          /\ endTime apt_malformed <= startTime apt_malformed
          /\ startTime apt_malformed
             < start slot_0900
               + slotDuration DEFAULT_CALENDAR_CONFIG * MS_PER_MINUTE).
Proof.
  apply (malformed_placed_only_strictly_inside DEFAULT_CALENDAR_CONFIG
           [apt_malformed] (ymd 2024 1 1) slot_0900 apt_malformed).
  vm_compute. discriminate.
Defined.

(** An appointment from 09:15 to 09:10 is malformed, and it is placed in the
    slot from 09:00 to 09:30 in the day view and in the week view. *)
Lemma malformed_appointment_is_placed :
  endTime apt_malformed <= startTime apt_malformed
  /\ DayView.getAppointmentsForSlot [apt_malformed] slot_0900 = [apt_malformed]
  /\ WeekView.cell DEFAULT_CALENDAR_CONFIG [apt_malformed] (ymd 2024 1 1)
       slot_0900 = [apt_malformed].
Proof.
  split; [vm_compute; discriminate|]. split; reflexivity.
Qed.

(** Every slot of a generated grid is [slotAt] its start. *)
Lemma hourRows_slotAt (cfg : CalendarConfig) (date : Date) (S : TimeSlot) :
  In S (hourRows cfg date) -> S = slotAt cfg (start S).
Proof.
  unfold hourRows, hourRow. rewrite in_flat_map. intros [q [_ Hin]].
  apply in_map_iff in Hin as [i [<- _]]. now rewrite makeSlot_slotAt.
Qed.

Section WeekColumns.

Variable cfg : CalendarConfig.
Variable weekStartDate : Date.
Variable appointments : list Appointment.
Hypothesis duration_pos : 0 < slotDuration cfg.
Hypothesis duration_divides : 60 mod slotDuration cfg = 0.
Hypothesis hours_ordered : startHour cfg < endHour cfg.
Hypothesis hours_in_day : 0 <= startHour cfg /\ endHour cfg <= 24.

(** The slots of the week grid all lie on the day of [weekStartDate]. *)
Lemma week_slot_on_first_day (S : TimeSlot) :
  In S (hourRows cfg weekStartDate) ->
  startOfDay weekStartDate <= start S
  /\ start S + slotDuration cfg * MS_PER_MINUTE
     <= startOfDay weekStartDate + MS_PER_DAY.
Proof.
  intros Hin. pose proof (hourRows_slotAt _ _ _ Hin) as HS.
  pose proof (dividing_grid_claim cfg weekStartDate duration_pos duration_divides
                hours_ordered) as [_ [_ [_ Hwin]]].
  specialize (Hwin S Hin). rewrite HS in Hwin. cbn [slotAt end_] in Hwin.
  split.
  - rewrite hourRows_nthSlot in Hin by assumption.
    apply in_map_iff in Hin as [i [<- _]].
    unfold nthSlot, slotAt, setHours, MS_PER_HOUR, MS_PER_MINUTE.
    cbn [start]. nia.
  - unfold setHours, MS_PER_HOUR, MS_PER_DAY in *. lia.
Qed.

(** The first column is placed as specified. *)
Lemma week_first_column (S : TimeSlot) :
  In S (hourRows cfg weekStartDate) ->
  WeekView.cell cfg appointments (addDays weekStartDate 0) S
  = specified_cell appointments weekStartDate S.
Proof.
  intros Hin. pose proof (week_slot_on_first_day _ Hin) as [Hlo Hhi].
  pose proof (hourRows_slotAt _ _ _ Hin) as HS.
  unfold WeekView.cell, WeekView.getAppointmentsForDayAndSlot, specified_cell.
  cbv zeta. apply filter_ext. intros A.
  rewrite setMinutes_getMinutes. unfold slotOnDay. cbv zeta. cbn [fst snd].
  assert (Hday : startOfDay (start S) = startOfDay weekStartDate).
  { unfold startOfDay at 1.
    assert (Hq : (start S) mod MS_PER_DAY = start S - startOfDay weekStartDate).
    { symmetry. apply Z.mod_unique_pos with (q := weekStartDate / MS_PER_DAY).
      - assert (0 < slotDuration cfg * MS_PER_MINUTE)
          by (unfold MS_PER_MINUTE; lia). lia.
      - unfold startOfDay. pose proof (Z.div_mod weekStartDate MS_PER_DAY
                                         ltac:(unfold MS_PER_DAY; lia)). lia. }
    lia. }
  rewrite Hday. unfold addDays. rewrite Z.mul_0_l, Z.add_0_r.
  rewrite HS at 3. cbn [slotAt end_ start].
  unfold isBefore, isAfter. f_equal; [f_equal|]; f_equal; lia.
Qed.

(** The columns of Tuesday to Sunday are always empty. *)
Lemma week_later_columns_empty (S : TimeSlot) (i : Z) :
  In S (hourRows cfg weekStartDate) -> 1 <= i ->
  WeekView.cell cfg appointments (addDays weekStartDate i) S = [].
Proof.
  intros Hin Hi. pose proof (week_slot_on_first_day _ Hin) as [Hlo Hhi].
  destruct (WeekView.cell cfg appointments (addDays weekStartDate i) S)
    as [|A l] eqn:Hcell; [reflexivity|exfalso].
  assert (HA : In A (WeekView.cell cfg appointments (addDays weekStartDate i) S))
    by (rewrite Hcell; now left).
  apply week_cell_In in HA as [_ [Hday [Hbefore _]]].
  rewrite startOfDay_addDays in Hday. unfold addDays in Hday.
  pose proof (startOfDay_le (startTime A)) as [HleA _].
  unfold MS_PER_DAY in *. nia.
Qed.

End WeekColumns.

(** C2 (the week grid at a cell of the Tuesday column).  On the week of
    Monday 2024-01-01, an appointment on Tuesday from 09:00 to 09:30 is
    specified to be placed at the 09:00 row of the Tuesday column; the week
    view compares it with the 09:00 slot of Monday and places nothing. *)
Theorem week_cell_tuesday_stays_empty :
  let weekStartDate := ymd 2024 1 1 in
  let tuesday := nth 1 (WeekView.weekDays weekStartDate) 0 in
  (exists slots,
     WeekView.timeSlots 100 DEFAULT_CALENDAR_CONFIG weekStartDate = Normal slots
     /\ In slot_0900 slots)
  /\ tuesday = ymd 2024 1 2
  /\ WeekView.cell DEFAULT_CALENDAR_CONFIG [apt_tuesday] tuesday slot_0900 = []
  /\ specified_cell [apt_tuesday] tuesday slot_0900 = [apt_tuesday].
Proof.
  cbv zeta. split; [|split; [|split]]; try reflexivity.
  eexists. split; [vm_compute; reflexivity|].
  vm_compute. do 2 right. left. reflexivity.
Qed.

(** ** The query window of the week view *)

(** The days [startOfWeek] goes back: the days since the last Monday. *)
Lemma startOfWeek_monday_days (d : Date) :
  exists back : Z,
    0 <= back <= 6
    /\ startOfWeek d 1 = startOfDay d - back * MS_PER_DAY
    /\ (d / MS_PER_DAY + 4 - back) mod 7 = 1.
Proof.
  unfold startOfWeek, getDay. cbv zeta.
  set (day := (d / MS_PER_DAY + 4) mod 7).
  assert (Hday : 0 <= day < 7) by (apply Z.mod_pos_bound; lia).
  exists ((if day <? 1 then 7 else 0) + day - 1).
  split; [destruct (Z.ltb_spec day 1); lia|]. split.
  - unfold setHours. rewrite startOfDay_addDays. unfold addDays. lia.
  - pose proof (Z.div_mod (d / MS_PER_DAY + 4) 7 ltac:(lia)) as Hdm.
    fold day in Hdm.
    destruct (Z.ltb_spec day 1).
    + symmetry.
      apply Z.mod_unique_pos with (q := (d / MS_PER_DAY + 4) / 7 - 1); lia.
    + symmetry.
      apply Z.mod_unique_pos with (q := (d / MS_PER_DAY + 4) / 7); lia.
Qed.

Lemma startOfDay_div (d : Date) :
  startOfDay d = MS_PER_DAY * (d / MS_PER_DAY).
Proof.
  unfold startOfDay.
  pose proof (Z.div_mod d MS_PER_DAY ltac:(unfold MS_PER_DAY; lia)). lia.
Qed.

(** C5. In week mode the query window handed to the hook starts at
    [weekStart], the midnight of the Monday of the week (Monday to Sunday)
    that contains the anchor date, and ends 6 days later; the anchor date
    2024-01-03, a Wednesday, gives the window from 2024-01-01 to
    2024-01-07. *)
Theorem week_window_monday_to_sunday :
  forall (doctor : string) (anchorDate : Date),
    let weekStart := ScheduleView.weekStart anchorDate in
    let params :=
      ScheduleView.hookParams
        {| ScheduleView.selectedDoctorId := doctor;
           ScheduleView.selectedDate := anchorDate;
           ScheduleView.view := ScheduleView.week |} in
    UseAppointments.startDate params = Some weekStart
    /\ UseAppointments.endDate params = Some (addDays weekStart 6)
    /\ getDay weekStart = 1
    /\ startOfDay weekStart = weekStart
    /\ weekStart <= anchorDate < addDays weekStart 7
    /\ getDay (ymd 2024 1 3) = 3
    /\ ScheduleView.weekStart (ymd 2024 1 3) = ymd 2024 1 1
    /\ addDays (ScheduleView.weekStart (ymd 2024 1 3)) 6 = ymd 2024 1 7.
Proof.
  intros doctor anchorDate. cbv zeta.
  split; [reflexivity|]. split; [reflexivity|].
  unfold ScheduleView.weekStart at 1 2 3 4 5.
  destruct (startOfWeek_monday_days anchorDate) as [back [Hback [Hws Hmon]]].
  rewrite Hws. rewrite startOfDay_div.
  assert (Heq : MS_PER_DAY * (anchorDate / MS_PER_DAY) - back * MS_PER_DAY
                = (anchorDate / MS_PER_DAY - back) * MS_PER_DAY) by lia.
  rewrite Heq.
  split; [|split; [|split]].
  - unfold getDay. rewrite Z.div_mul by (unfold MS_PER_DAY; lia).
    rewrite <- Hmon. f_equal. lia.
  - unfold startOfDay. rewrite Z.mod_mul by (unfold MS_PER_DAY; lia). lia.
  - pose proof (startOfDay_le anchorDate) as Hle. rewrite startOfDay_div in Hle.
    unfold addDays, MS_PER_DAY in *. lia.
  - split; [reflexivity|]. split; reflexivity.
Qed.

(** ** The hook *)

Import UseAppointments.

(** *** The sort of the fetched list *)

Lemma insert_Permutation {A : Type} (cmp : A -> A -> Z) (x : A) (l : list A) :
  Permutation (x :: l) (insert cmp x l).
Proof.
  induction l as [|y l IH]; simpl; [reflexivity|].
  destruct (cmp x y <=? 0); [reflexivity|].
  rewrite perm_swap. now apply perm_skip.
Qed.

Lemma array_sort_Permutation {A : Type} (cmp : A -> A -> Z) (l : list A) :
  Permutation l (array_sort cmp l).
Proof.
  induction l as [|x l IH]; simpl; [reflexivity|].
  rewrite <- insert_Permutation. now apply perm_skip.
Qed.

Lemma insert_sorted (x : Appointment) (l : list Appointment) :
  sortedByStartTime l -> sortedByStartTime (insert byStartTime x l).
Proof.
  unfold sortedByStartTime.
  induction 1 as [|y l Hl IH Hy]; simpl.
  - repeat constructor.
  - unfold byStartTime at 1.
    destruct (Z.leb_spec (startTime x - startTime y) 0) as [Hle|Hgt].
    + constructor; [now constructor|].
      constructor; [lia|].
      eapply Forall_impl; [|exact Hy]. cbv beta. intros a Ha. lia.
    + constructor; [exact IH|].
      eapply Permutation_Forall; [apply insert_Permutation|].
      constructor; [lia|exact Hy].
Qed.

Lemma array_sort_sorted (l : list Appointment) :
  sortedByStartTime (array_sort byStartTime l).
Proof.
  induction l as [|x l IH]; simpl; [constructor|now apply insert_sorted].
Qed.

(** Appointments with equal start times keep their order. *)
Lemma insert_stable (t : Date) (x : Appointment) (l : list Appointment) :
  startingAt t (insert byStartTime x l) = startingAt t (x :: l).
Proof.
  unfold startingAt. induction l as [|y l IH]; simpl; [reflexivity|].
  unfold byStartTime at 1.
  destruct (Z.leb_spec (startTime x - startTime y) 0) as [Hle|Hgt];
    [reflexivity|].
  simpl. rewrite IH. simpl.
  destruct (Z.eqb_spec (startTime x) t), (Z.eqb_spec (startTime y) t);
    try reflexivity.
  lia.
Qed.

Lemma array_sort_stable (t : Date) (l : list Appointment) :
  startingAt t (array_sort byStartTime l) = startingAt t l.
Proof.
  induction l as [|x l IH]; simpl; [reflexivity|].
  rewrite insert_stable. unfold startingAt in *. simpl. now rewrite IH.
Qed.

(** *** The effect *)

Section HookFacts.

Variable svc : AppointmentService.

(** The effect always completes normally, in one of two states. *)
Lemma fetchEffect_run (params : UseAppointmentsParams) (s : HookState) :
  fetchEffect svc params s
  = (Normal tt,
     match query svc params with
     | Returns data =>
         {| appointments := array_sort byStartTime data;
            loading := false; error := None |}
     | Throws e =>
         {| appointments := appointments s; loading := false; error := Some e |}
     end).
Proof.
  unfold fetchEffect, query, bind, try_catch_finally, call,
    setLoading, setError, setAppointments.
  destruct (startDate params), (endDate params); cbn;
    match goal with
    | |- context [match ?r with Returns _ => _ | Throws _ => _ end] =>
        destruct r; reflexivity
    end.
Qed.

Lemma afterEffect_eq (params : UseAppointmentsParams) (s : HookState) :
  afterEffect svc s params
  = match query svc params with
    | Returns data =>
        {| appointments := array_sort byStartTime data;
           loading := false; error := None |}
    | Throws e =>
        {| appointments := appointments s; loading := false; error := Some e |}
    end.
Proof. unfold afterEffect. now rewrite fetchEffect_run. Qed.

Lemma afterEffects_app (s : HookState) (l1 l2 : list UseAppointmentsParams) :
  afterEffects svc s (l1 ++ l2) = afterEffects svc (afterEffects svc s l1) l2.
Proof. unfold afterEffects. apply fold_left_app. Qed.

(** The exposed list stays sorted along every run of the effect. *)
Lemma afterEffects_sorted (changes : list UseAppointmentsParams) :
  forall s, sortedByStartTime (appointments s) ->
            sortedByStartTime (appointments (afterEffects svc s changes)).
Proof.
  induction changes as [|params changes IH]; intros s Hs; [exact Hs|].
  simpl. apply IH. rewrite afterEffect_eq.
  destruct (query svc params); cbn [appointments];
    [apply array_sort_sorted|exact Hs].
Qed.

End HookFacts.

(** C6. Whatever the service and the sequence of selection changes, the
    appointment list the hook exposes is sorted ascending by start time; the
    list exposed after a successful query is the fetched list reordered, and
    appointments that share a start time keep the order the service gave
    them, so the order is determined by the fetched list. *)
Theorem exposed_appointments_sorted_and_stable :
  forall (svc : AppointmentService) (changes : list ScheduleView.Selection),
    sortedByStartTime
      (appointments (ScheduleView.afterSelections svc initialState changes))
    /\ forall (prev : HookState) (sel : ScheduleView.Selection)
              (data : list Appointment),
         query svc (ScheduleView.hookParams sel) = Returns data ->
         let exposed :=
           appointments (afterEffect svc prev (ScheduleView.hookParams sel)) in
         sortedByStartTime exposed
         /\ Permutation data exposed
         /\ forall t, startingAt t exposed = startingAt t data.
Proof.
  intros svc changes. split.
  - unfold ScheduleView.afterSelections. apply afterEffects_sorted.
    constructor.
  - intros prev sel data Hq. cbv zeta. rewrite afterEffect_eq, Hq.
    cbn [appointments]. split; [apply array_sort_sorted|].
    split; [apply array_sort_Permutation|].
    intros t. apply array_sort_stable.
Qed.

Lemma exposed_appointments_example :
  sortedByStartTime
    (appointments
       (ScheduleView.afterSelections example_service initialState
          [select_d1; select_d2]))
  /\ appointments
       (afterEffect example_service initialState
          (ScheduleView.hookParams select_d1))
     = [apt_nine; apt_ten_a; apt_ten_b]
  /\ startingAt (localDate 2024 1 1 10 0)
       (appointments
          (afterEffect example_service initialState
             (ScheduleView.hookParams select_d1)))
     = startingAt (localDate 2024 1 1 10 0) [apt_ten_a; apt_nine; apt_ten_b].
Proof.
  pose proof (exposed_appointments_sorted_and_stable example_service
                [select_d1; select_d2]) as [Hsorted Hstable].
  split; [exact Hsorted|]. split; [reflexivity|].
  exact (proj2 (proj2 (Hstable initialState select_d1
                         [apt_ten_a; apt_nine; apt_ten_b] eq_refl))
           (localDate 2024 1 1 10 0)).
Defined.

(** C7. The effect a selection change triggers always completes normally,
    whether the read returns or throws: nothing is thrown out of it, the
    loading flag is false afterwards, and a read that throws leaves its
    error in the error state (a read that returns leaves none). *)
Theorem effect_clears_loading_and_catches :
  forall (svc : AppointmentService) (sel : ScheduleView.Selection)
         (s : HookState),
    exists s',
      fetchEffect svc (ScheduleView.hookParams sel) s = (Normal tt, s')
      /\ loading s' = false
      /\ error s' = match query svc (ScheduleView.hookParams sel) with
                    | Returns _ => None
                    | Throws e => Some e
                    end.
Proof.
  intros svc sel s. rewrite fetchEffect_run. eexists. split; [reflexivity|].
  destruct (query svc (ScheduleView.hookParams sel)); split; reflexivity.
Qed.

(** C10. When the read of a selection change throws, the appointment list
    exposed before is exposed unchanged afterwards. *)
Theorem failed_query_retains_appointments :
  forall (svc : AppointmentService) (sel : ScheduleView.Selection)
         (s : HookState) (e : Error),
    query svc (ScheduleView.hookParams sel) = Throws e ->
    appointments (afterEffect svc s (ScheduleView.hookParams sel))
    = appointments s
    /\ error (afterEffect svc s (ScheduleView.hookParams sel)) = Some e.
Proof.
  intros svc sel s e Hq. rewrite afterEffect_eq, Hq. split; reflexivity.
Qed.

Lemma failed_query_retains_example :
  let before :=
    afterEffect example_service initialState (ScheduleView.hookParams select_d1)
  in
  appointments before = [apt_nine; apt_ten_a; apt_ten_b]
  /\ appointments
       (afterEffect example_service before (ScheduleView.hookParams select_d2))
     = appointments before
  /\ error
       (afterEffect example_service before (ScheduleView.hookParams select_d2))
     = Some "store unavailable".
Proof.
  cbv zeta. split; [reflexivity|].
  apply (failed_query_retains_appointments example_service select_d2
           (afterEffect example_service initialState
              (ScheduleView.hookParams select_d1))
           "store unavailable").
  reflexivity.
Defined.

(** C9 (amended). Each query runs to completion inside the effect of its own
    selection change, before the next change is handled.  After the last
    selection change the loading flag is false and the error state is that of
    the latest query alone; when the latest query returned, the whole exposed
    state is its sorted result and does not depend on any earlier selection
    or state; when it threw, the appointment list is the one exposed before
    that change. *)
Theorem latest_selection_determines_state :
  forall (svc : AppointmentService) (s0 : HookState)
         (older : list ScheduleView.Selection) (latest : ScheduleView.Selection),
    let before := ScheduleView.afterSelections svc s0 older in
    let final := ScheduleView.afterSelections svc s0 (older ++ [latest]) in
    loading final = false
    /\ error final = match query svc (ScheduleView.hookParams latest) with
                     | Returns _ => None
                     | Throws e => Some e
                     end
    /\ appointments final
       = match query svc (ScheduleView.hookParams latest) with
         | Returns data => array_sort byStartTime data
         | Throws _ => appointments before
         end
    /\ forall data,
         query svc (ScheduleView.hookParams latest) = Returns data ->
         forall (s0' : HookState) (older' : list ScheduleView.Selection),
           ScheduleView.afterSelections svc s0' (older' ++ [latest]) = final.
Proof.
  intros svc s0 older latest. cbv zeta.
  assert (Hlast : forall s l,
             ScheduleView.afterSelections svc s (l ++ [latest])
             = afterEffect svc (ScheduleView.afterSelections svc s l)
                 (ScheduleView.hookParams latest)).
  { intros s l. unfold ScheduleView.afterSelections.
    now rewrite map_app, afterEffects_app. }
  rewrite Hlast, afterEffect_eq.
  destruct (query svc (ScheduleView.hookParams latest)) as [data|e] eqn:Hq.
  - repeat split. intros data' Hd s0' older'.
    now rewrite Hlast, afterEffect_eq, Hq.
  - repeat split. intros data' Hd. discriminate Hd.
Qed.

Lemma latest_selection_example :
  let final :=
    ScheduleView.afterSelections example_service initialState
      [select_d2; select_d1] in
  final = {| appointments := [apt_nine; apt_ten_a; apt_ten_b];
             loading := false; error := None |}
  /\ ScheduleView.afterSelections example_service final [select_d1] = final.
Proof.
  cbv zeta.
  pose proof (latest_selection_determines_state example_service initialState
                [select_d2] select_d1) as [_ [_ [_ Hindep]]].
  split; [reflexivity|].
  exact (Hindep [apt_ten_a; apt_nine; apt_ten_b] eq_refl
           (ScheduleView.afterSelections example_service initialState
              [select_d2; select_d1]) []).
Defined.

(** After the selection of doctor [d1] succeeded, the query of the newer
    selection [d2] throws: the state observed after this last selection
    change still holds the appointment list of the older selection. *)
Lemma failed_latest_query_shows_older_result :
  let final :=
    ScheduleView.afterSelections example_service initialState
      [select_d1; select_d2] in
  query example_service (ScheduleView.hookParams select_d1)
  = Returns [apt_ten_a; apt_nine; apt_ten_b]
  /\ query example_service (ScheduleView.hookParams select_d2)
     = Throws "store unavailable"
  /\ appointments final = [apt_nine; apt_ten_a; apt_ten_b]
  /\ appointments final
     = appointments
         (ScheduleView.afterSelections example_service initialState [select_d1])
  /\ error final = Some "store unavailable".
Proof.
  cbv zeta. repeat split.
Qed.

(** * Further properties of the components *)

(** ** Slot generation for every positive slot duration *)

Section PositiveDuration.

Variable cfg : CalendarConfig.
Variable date : Date.
Hypothesis duration_pos : 0 < slotDuration cfg.

Lemma slotsPerHour_nonzero : (0 < slotsPerHour cfg)%nat.
Proof.
  pose proof (slotsPerHour_pos cfg duration_pos).
  pose proof (Z.div_pos 59 (slotDuration cfg) ltac:(lia) duration_pos). lia.
Qed.

Lemma minute_below_60 (k : nat) : (k < slotsPerHour cfg)%nat ->
  0 <= Z.of_nat k * slotDuration cfg < 60.
Proof.
  intros Hk. pose proof (minute_cond cfg k duration_pos) as Hc.
  destruct (Nat.ltb_spec k (slotsPerHour cfg)); [|lia].
  apply Z.ltb_lt in Hc. nia.
Qed.

Lemma hourRows_by_position :
  hourRows cfg date
  = map (slotAtPosition cfg date) (seq 0 (hoursShown cfg * slotsPerHour cfg)).
Proof.
  rewrite <- flat_map_rows. unfold hourRows.
  apply flat_map_ext. intros q. unfold hourRow. apply map_ext_in.
  intros i Hi. apply in_seq in Hi. unfold slotAtPosition.
  pose proof slotsPerHour_nonzero as Hc.
  rewrite Nat.div_add_l, Nat.div_small, Nat.add_0_r by lia.
  replace (q * slotsPerHour cfg + i)%nat with (i + q * slotsPerHour cfg)%nat
    by lia.
  rewrite Nat.Div0.mod_add, Nat.mod_small by lia. reflexivity.
Qed.

Lemma slotAtPosition_start (n : nat) :
  start (slotAtPosition cfg date n)
  = startOfDay date
    + (startHour cfg + Z.of_nat (n / slotsPerHour cfg)) * MS_PER_HOUR
    + Z.of_nat (n mod slotsPerHour cfg) * slotDuration cfg * MS_PER_MINUTE.
Proof. unfold slotAtPosition. rewrite makeSlot_slotAt. reflexivity. Qed.

Lemma slotAtPosition_start_mono (n m : nat) : (n < m)%nat ->
  start (slotAtPosition cfg date n) < start (slotAtPosition cfg date m).
Proof.
  intros Hnm. rewrite !slotAtPosition_start.
  pose proof slotsPerHour_nonzero as Hc.
  pose proof (Nat.div_mod_eq n (slotsPerHour cfg)) as Hn.
  pose proof (Nat.div_mod_eq m (slotsPerHour cfg)) as Hm.
  pose proof (Nat.mod_upper_bound n (slotsPerHour cfg) ltac:(lia)) as Hrn.
  pose proof (Nat.mod_upper_bound m (slotsPerHour cfg) ltac:(lia)) as Hrm.
  pose proof (minute_below_60 _ Hrn) as Hmn.
  pose proof (minute_below_60 _ Hrm) as Hmm.
  assert (Hq : (n / slotsPerHour cfg <= m / slotsPerHour cfg)%nat)
    by (apply Nat.Div0.div_le_mono; lia).
  unfold MS_PER_HOUR, MS_PER_MINUTE.
  destruct (Nat.eq_dec (n / slotsPerHour cfg) (m / slotsPerHour cfg)) as [Heq|Hne].
  - rewrite Heq in *.
    assert (n mod slotsPerHour cfg < m mod slotsPerHour cfg)%nat by lia.
    nia.
  - assert (Z.of_nat (n / slotsPerHour cfg) + 1
            <= Z.of_nat (m / slotsPerHour cfg)) by lia.
    nia.
Qed.

End PositiveDuration.

(** X1. For every positive slot duration, dividing the hour or not, the
    generator of both views finishes and returns
    [(endHour - startHour) * (floor(59 / slotDuration) + 1)] slots (none when
    [endHour <= startHour]); each slot lasts [slotDuration] minutes, is
    labelled by its start, starts within [startHour]:00 and [endHour]:00 of
    the anchor date, and the starts ascend strictly along the list. *)
Theorem slot_grid_for_positive_duration :
  forall (cfg : CalendarConfig) (date : Date),
    0 < slotDuration cfg ->
    exists slots,
      (forall fuel, (enoughFuel cfg <= fuel)%nat ->
         DayView.timeSlots fuel cfg date = Normal slots
         /\ WeekView.timeSlots fuel cfg date = Normal slots)
      /\ Z.of_nat (List.length slots)
         = Z.max 0 (endHour cfg - startHour cfg) * (59 / slotDuration cfg + 1)
      /\ (forall s, In s slots ->
            end_ s = start s + slotMs cfg
            /\ label s = formatHHmm (start s)
            /\ gridStart cfg date <= start s < gridEnd cfg date)
      /\ starts_ascending slots.
Proof.
  intros cfg date Hd. exists (hourRows cfg date).
  split; [|split; [|split]].
  - intros fuel Hfuel. unfold DayView.timeSlots, WeekView.timeSlots.
    split; now apply timeSlots_returns.
  - rewrite (hourRows_by_position cfg date Hd), length_map, length_seq.
    rewrite Nat2Z.inj_mul, (slotsPerHour_pos cfg Hd). unfold hoursShown. lia.
  - intros s Hin. pose proof (hourRows_slotAt _ _ _ Hin) as Hs.
    split; [rewrite Hs at 1; reflexivity|].
    split; [rewrite Hs at 1; reflexivity|].
    rewrite (hourRows_by_position cfg date Hd) in Hin.
    apply in_map_iff in Hin as [n [<- Hn]]. apply in_seq in Hn.
    rewrite slotAtPosition_start.
    pose proof (slotsPerHour_nonzero cfg Hd) as Hc.
    assert (Hq : (n / slotsPerHour cfg < hoursShown cfg)%nat)
      by (apply Nat.Div0.div_lt_upper_bound; lia).
    pose proof (minute_below_60 cfg Hd _
                  (Nat.mod_upper_bound n (slotsPerHour cfg) ltac:(lia))) as Hm.
    unfold gridStart, gridEnd, setHours, hoursShown, MS_PER_HOUR, MS_PER_MINUTE in *.
    nia.
  - intros i j s1 s2 Hij H1 H2.
    rewrite (hourRows_by_position cfg date Hd) in H1, H2.
    apply nth_error_map_seq in H1 as [_ ->].
    apply nth_error_map_seq in H2 as [_ ->].
    now apply slotAtPosition_start_mono.
Qed.

Lemma slot_grid_45_minutes :
  exists slots,
    (forall fuel, (enoughFuel config_45 <= fuel)%nat ->
       DayView.timeSlots fuel config_45 (ymd 2024 1 1) = Normal slots
       /\ WeekView.timeSlots fuel config_45 (ymd 2024 1 1) = Normal slots)
    /\ Z.of_nat (List.length slots)
       = Z.max 0 (endHour config_45 - startHour config_45)
         * (59 / slotDuration config_45 + 1)
    /\ (forall s, In s slots ->
          end_ s = start s + slotMs config_45
          /\ label s = formatHHmm (start s)
          /\ gridStart config_45 (ymd 2024 1 1) <= start s
             < gridEnd config_45 (ymd 2024 1 1))
    /\ starts_ascending slots.
Proof.
  apply (slot_grid_for_positive_duration config_45 (ymd 2024 1 1)).
  reflexivity.
Defined.

(** ** Rows of the day timeline in which an appointment is placed *)

Section GridPlacement.

Variable cfg : CalendarConfig.
Variable date : Date.
Hypothesis duration_pos : 0 < slotDuration cfg.
Hypothesis duration_divides : 60 mod slotDuration cfg = 0.

Lemma slotMs_pos : 0 < slotMs cfg.
Proof. unfold slotMs, MS_PER_MINUTE. lia. Qed.

Lemma nthSlot_span (i : nat) :
  start (nthSlot cfg date i) = gridStart cfg date + Z.of_nat i * slotMs cfg
  /\ end_ (nthSlot cfg date i)
     = gridStart cfg date + (Z.of_nat i + 1) * slotMs cfg.
Proof.
  unfold nthSlot, slotAt, gridStart, slotMs. cbn [start end_]. lia.
Qed.

Lemma grid_span : startHour cfg < endHour cfg ->
  gridEnd cfg date
  = gridStart cfg date
    + Z.of_nat (hoursShown cfg * slotsPerHour cfg) * slotMs cfg.
Proof.
  intros Hh. pose proof (slotsPerHour_exact cfg duration_pos duration_divides) as Hc.
  rewrite Nat2Z.inj_mul.
  unfold gridEnd, gridStart, setHours, slotMs, hoursShown, MS_PER_HOUR,
    MS_PER_MINUTE.
  rewrite Z2Nat.id by lia. nia.
Qed.

(** The generated list, read by row. *)
Lemma generated_row (fuel : nat) (slots : list TimeSlot) (i : nat)
    (S : TimeSlot) :
  (enoughFuel cfg <= fuel)%nat ->
  DayView.timeSlots fuel cfg date = Normal slots ->
  nth_error slots i = Some S ->
  (i < hoursShown cfg * slotsPerHour cfg)%nat /\ S = nthSlot cfg date i.
Proof.
  intros Hfuel Hrun Hnth. unfold DayView.timeSlots in Hrun.
  rewrite (timeSlots_returns cfg date fuel duration_pos Hfuel) in Hrun.
  injection Hrun as <-.
  rewrite (hourRows_nthSlot cfg date duration_pos duration_divides) in Hnth.
  now apply nth_error_map_seq in Hnth.
Qed.

Lemma generated_In (fuel : nat) (slots : list TimeSlot) (S : TimeSlot) :
  (enoughFuel cfg <= fuel)%nat ->
  DayView.timeSlots fuel cfg date = Normal slots ->
  In S slots <->
  exists i, (i < hoursShown cfg * slotsPerHour cfg)%nat /\ S = nthSlot cfg date i.
Proof.
  intros Hfuel Hrun. unfold DayView.timeSlots in Hrun.
  rewrite (timeSlots_returns cfg date fuel duration_pos Hfuel) in Hrun.
  injection Hrun as <-.
  rewrite (hourRows_nthSlot cfg date duration_pos duration_divides).
  rewrite in_map_iff. split.
  - intros [i [<- Hi]]. apply in_seq in Hi. exists i. split; [lia|reflexivity].
  - intros [i [Hi ->]]. exists i. split; [reflexivity|]. apply in_seq. lia.
Qed.

(** An interval overlaps row [i] exactly when [i] lies between the row of its
    first and the row of its last millisecond. *)
Lemma row_overlap (aptStart aptEnd : Date) (i : nat) :
  (aptStart < end_ (nthSlot cfg date i)
   /\ aptEnd > start (nthSlot cfg date i))
  <-> (aptStart - gridStart cfg date) / slotMs cfg <= Z.of_nat i
      /\ Z.of_nat i <= (aptEnd - 1 - gridStart cfg date) / slotMs cfg.
Proof.
  destruct (nthSlot_span i) as [-> ->]. pose proof slotMs_pos as Hpos.
  pose proof (Z.div_mod (aptStart - gridStart cfg date) (slotMs cfg) ltac:(lia)).
  pose proof (Z.mod_pos_bound (aptStart - gridStart cfg date) (slotMs cfg) Hpos).
  pose proof (Z.div_mod (aptEnd - 1 - gridStart cfg date) (slotMs cfg)
                ltac:(lia)).
  pose proof (Z.mod_pos_bound (aptEnd - 1 - gridStart cfg date) (slotMs cfg)
                Hpos).
  split; intros [Ha Hb]; split; nia.
Qed.

(** A non-empty interval that meets the window of the grid meets a row. *)
Lemma window_overlap_row (aptStart aptEnd : Date) :
  startHour cfg < endHour cfg ->
  aptStart < aptEnd ->
  aptStart < gridEnd cfg date -> aptEnd > gridStart cfg date ->
  exists i, (i < hoursShown cfg * slotsPerHour cfg)%nat
            /\ aptStart < end_ (nthSlot cfg date i)
            /\ aptEnd > start (nthSlot cfg date i).
Proof.
  intros Hh Hlt Hs He. pose proof (grid_span Hh) as Hg.
  assert (Hwin : gridStart cfg date < gridEnd cfg date)
    by (unfold gridStart, gridEnd, setHours, MS_PER_HOUR; lia).
  pose proof slotMs_pos as Hpos.
  set (m := Z.max aptStart (gridStart cfg date) - gridStart cfg date).
  assert (Hm : 0 <= m) by lia.
  pose proof (Z.div_mod m (slotMs cfg) ltac:(lia)) as Hdm.
  pose proof (Z.mod_pos_bound m (slotMs cfg) Hpos) as Hmod.
  assert (Hq : 0 <= m / slotMs cfg) by (apply Z.div_pos; lia).
  exists (Z.to_nat (m / slotMs cfg)).
  destruct (nthSlot_span (Z.to_nat (m / slotMs cfg))) as [-> ->].
  rewrite Z2Nat.id by lia.
  assert (Hmlt : m < Z.of_nat (hoursShown cfg * slotsPerHour cfg) * slotMs cfg)
    by lia.
  split; [|split].
  - apply Nat2Z.inj_lt. rewrite Z2Nat.id by lia. nia.
  - lia.
  - destruct (Z.max_spec aptStart (gridStart cfg date)) as [[Hc Hmax]|[Hc Hmax]].
    + assert (m = 0) by lia. assert (Hz : m / slotMs cfg = 0).
      { apply Z.div_small. lia. }
      rewrite Hz. lia.
    + lia.
Qed.

End GridPlacement.

Lemma dayRows_nth (appointments : list Appointment) (slots : list TimeSlot)
    (i : nat) (row : TimeSlot * list Appointment) :
  nth_error (Render.dayRows appointments slots) i = Some row ->
  exists S, nth_error slots i = Some S
            /\ row = (S, DayView.getAppointmentsForSlot appointments S).
Proof.
  unfold Render.dayRows. rewrite nth_error_map.
  destruct (nth_error slots i) as [S|]; [|discriminate].
  cbn. intros [= <-]. now exists S.
Qed.

(** X2. In the day timeline of a grid whose slot duration divides the hour,
    an appointment is placed in row [i] exactly when [i] lies between
    [floor((startTime - gridStart) / slot length)] and
    [floor((endTime - 1 - gridStart) / slot length)]: the rows that show an
    appointment are consecutive, from the row of its first millisecond to
    the row of its last one. *)
Theorem appointment_rows_are_consecutive :
  forall (cfg : CalendarConfig) (date : Date) (fuel : nat)
         (slots : list TimeSlot) (appointments : list Appointment)
         (A : Appointment) (i : nat) (row : TimeSlot * list Appointment),
    0 < slotDuration cfg -> 60 mod slotDuration cfg = 0 ->
    (enoughFuel cfg <= fuel)%nat ->
    DayView.timeSlots fuel cfg date = Normal slots ->
    nth_error (Render.dayRows appointments slots) i = Some row ->
    (In A (snd row) <->
       In A appointments
       /\ (startTime A - gridStart cfg date) / slotMs cfg <= Z.of_nat i
       /\ Z.of_nat i <= (endTime A - 1 - gridStart cfg date) / slotMs cfg).
Proof.
  intros cfg date fuel slots appointments A i row Hd Hdiv Hfuel Hrun Hrow.
  apply dayRows_nth in Hrow as [S [HS ->]]. cbn [snd].
  destruct (generated_row cfg date Hd Hdiv fuel slots i S Hfuel Hrun HS)
    as [_ ->].
  rewrite day_cell_In, <- (row_overlap cfg date Hd). tauto.
Qed.

Lemma appointment_rows_scenario :
  In apt_quarter_past
     (snd (slot_0900,
           DayView.getAppointmentsForSlot [apt_quarter_past] slot_0900))
  <-> In apt_quarter_past [apt_quarter_past]
      /\ (startTime apt_quarter_past
          - gridStart DEFAULT_CALENDAR_CONFIG (ymd 2024 1 1))
         / slotMs DEFAULT_CALENDAR_CONFIG <= Z.of_nat 2
      /\ Z.of_nat 2
         <= (endTime apt_quarter_past - 1
             - gridStart DEFAULT_CALENDAR_CONFIG (ymd 2024 1 1))
            / slotMs DEFAULT_CALENDAR_CONFIG.
Proof.
  apply (appointment_rows_are_consecutive DEFAULT_CALENDAR_CONFIG (ymd 2024 1 1)
           100 (hourRows DEFAULT_CALENDAR_CONFIG (ymd 2024 1 1))
           [apt_quarter_past] apt_quarter_past 2).
  - reflexivity.
  - reflexivity.
  - vm_compute. lia.
  - vm_compute. reflexivity.
  - vm_compute. reflexivity.
Defined.

(** X3. In the day timeline of a grid whose slot duration divides the hour,
    an appointment that ends after it starts is shown in at least one row
    exactly when it is in the list and overlaps the window of the grid, from
    [startHour]:00 to [endHour]:00 of the date; an appointment wholly outside
    the window is shown in no row. *)
Theorem shown_in_some_row_iff_in_window :
  forall (cfg : CalendarConfig) (date : Date) (fuel : nat)
         (slots : list TimeSlot) (appointments : list Appointment)
         (A : Appointment),
    0 < slotDuration cfg -> 60 mod slotDuration cfg = 0 ->
    startHour cfg < endHour cfg ->
    (enoughFuel cfg <= fuel)%nat ->
    DayView.timeSlots fuel cfg date = Normal slots ->
    startTime A < endTime A ->
    ((exists row, In row (Render.dayRows appointments slots) /\ In A (snd row))
     <-> In A appointments
         /\ startTime A < gridEnd cfg date
         /\ endTime A > gridStart cfg date).
Proof.
  intros cfg date fuel slots appointments A Hd Hdiv Hh Hfuel Hrun Hwf.
  split.
  - intros [row [Hrow HA]]. unfold Render.dayRows in Hrow.
    apply in_map_iff in Hrow as [S [<- HS]]. cbn [snd] in HA.
    apply day_cell_In in HA as [Hin [Hb Ha]].
    apply (generated_In cfg date Hd Hdiv fuel slots S Hfuel Hrun) in HS
      as [i [Hi ->]].
    pose proof (nthSlot_end_bound cfg date Hd Hdiv i Hh Hi) as Hend.
    destruct (nthSlot_span cfg date i) as [Hst _].
    pose proof (slotMs_pos cfg Hd). unfold gridEnd.
    split; [exact Hin|]. split; [lia|]. rewrite Hst in Ha. nia.
  - intros [Hin [Hs He]].
    destruct (window_overlap_row cfg date Hd Hdiv (startTime A) (endTime A)
                Hh Hwf Hs He) as [i [Hi [Hb Ha]]].
    exists (nthSlot cfg date i,
            DayView.getAppointmentsForSlot appointments (nthSlot cfg date i)).
    split.
    + unfold Render.dayRows. apply in_map_iff.
      exists (nthSlot cfg date i). split; [reflexivity|].
      apply (generated_In cfg date Hd Hdiv fuel slots _ Hfuel Hrun).
      now exists i.
    + cbn [snd]. apply day_cell_In. tauto.
Qed.

Lemma shown_in_some_row_scenario :
  (exists row,
     In row (Render.dayRows [apt_quarter_past]
               (hourRows DEFAULT_CALENDAR_CONFIG (ymd 2024 1 1)))
     /\ In apt_quarter_past (snd row))
  <-> In apt_quarter_past [apt_quarter_past]
      /\ startTime apt_quarter_past
         < gridEnd DEFAULT_CALENDAR_CONFIG (ymd 2024 1 1)
      /\ endTime apt_quarter_past
         > gridStart DEFAULT_CALENDAR_CONFIG (ymd 2024 1 1).
Proof.
  apply (shown_in_some_row_iff_in_window DEFAULT_CALENDAR_CONFIG (ymd 2024 1 1)
           100 (hourRows DEFAULT_CALENDAR_CONFIG (ymd 2024 1 1))
           [apt_quarter_past] apt_quarter_past).
  - reflexivity.
  - reflexivity.
  - reflexivity.
  - vm_compute. lia.
  - vm_compute. reflexivity.
  - reflexivity.
Defined.

(** ** From the hook to the cells *)

Lemma filter_sortedByStartTime (f : Appointment -> bool) (l : list Appointment) :
  sortedByStartTime l -> sortedByStartTime (filter f l).
Proof.
  unfold sortedByStartTime. induction 1 as [|a l Hl IH Ha]; simpl.
  - constructor.
  - destruct (f a); [|exact IH]. constructor; [exact IH|].
    apply Forall_forall. intros b Hb. apply filter_In in Hb as [Hb _].
    rewrite Forall_forall in Ha. now apply Ha.
Qed.

(** X4. Whatever the service and the selection changes, the cards of every
    row of the day timeline and of every cell of the week table, taken from
    the list the hook exposes, are in ascending order of start time. *)
Theorem cells_are_sorted :
  forall (svc : AppointmentService) (changes : list ScheduleView.Selection)
         (cfg : CalendarConfig) (day : Date) (slot : TimeSlot),
    let exposed :=
      appointments (ScheduleView.afterSelections svc initialState changes) in
    sortedByStartTime (DayView.getAppointmentsForSlot exposed slot)
    /\ sortedByStartTime
         (WeekView.getAppointmentsForDayAndSlot cfg exposed day (start slot))
    /\ sortedByStartTime (WeekView.getAppointmentsForDay exposed day).
Proof.
  intros svc changes cfg day slot. cbv zeta.
  assert (Hs : sortedByStartTime
                 (appointments
                    (ScheduleView.afterSelections svc initialState changes))).
  { unfold ScheduleView.afterSelections. apply afterEffects_sorted. constructor. }
  split; [|split]; now apply filter_sortedByStartTime.
Qed.

Lemma filter_and {A : Type} (f g : A -> bool) (l : list A) :
  filter f (filter g l) = filter (fun x => f x && g x) l.
Proof.
  induction l as [|x l IH]; simpl; [reflexivity|].
  destruct (g x); simpl; rewrite ?andb_true_r, ?andb_false_r.
  - destruct (f x); now rewrite IH.
  - exact IH.
Qed.

(** X5. A cell of the week table holds what the day timeline places in that
    slot, restricted to the appointments that start on the day of the
    column: for a slot the generator returned,
    [getAppointmentsForDayAndSlot(day, slot.start)] is
    [getAppointmentsForDay(day)] applied to [getAppointmentsForSlot(slot)]. *)
Theorem week_cell_is_day_placement_on_day :
  forall (cfg : CalendarConfig) (weekStartDate : Date) (fuel : nat)
         (slots : list TimeSlot) (appointments : list Appointment)
         (day : Date) (slot : TimeSlot),
    0 < slotDuration cfg -> (enoughFuel cfg <= fuel)%nat ->
    WeekView.timeSlots fuel cfg weekStartDate = Normal slots ->
    In slot slots ->
    WeekView.getAppointmentsForDayAndSlot cfg appointments day (start slot)
    = WeekView.getAppointmentsForDay
        (DayView.getAppointmentsForSlot appointments slot) day.
Proof.
  intros cfg weekStartDate fuel slots appointments day slot Hd Hfuel Hrun Hin.
  unfold WeekView.timeSlots in Hrun.
  rewrite (timeSlots_returns cfg weekStartDate fuel Hd Hfuel) in Hrun.
  injection Hrun as <-. apply hourRows_slotAt in Hin.
  unfold WeekView.getAppointmentsForDay, DayView.getAppointmentsForSlot,
    WeekView.getAppointmentsForDayAndSlot.
  cbv zeta. rewrite filter_and, setMinutes_getMinutes.
  replace (end_ slot) with (start slot + slotDuration cfg * MS_PER_MINUTE)
    by (rewrite Hin at 2; reflexivity).
  apply filter_ext. intros A. now rewrite andb_assoc.
Qed.

Lemma week_cell_is_day_placement_example :
  WeekView.getAppointmentsForDayAndSlot DEFAULT_CALENDAR_CONFIG
    [apt_nine; apt_tuesday] (ymd 2024 1 1) (start slot_0900)
  = WeekView.getAppointmentsForDay
      (DayView.getAppointmentsForSlot [apt_nine; apt_tuesday] slot_0900)
      (ymd 2024 1 1).
Proof.
  apply (week_cell_is_day_placement_on_day DEFAULT_CALENDAR_CONFIG
           (ymd 2024 1 1) 100
           (hourRows DEFAULT_CALENDAR_CONFIG (ymd 2024 1 1))).
  - reflexivity.
  - vm_compute. lia.
  - vm_compute. reflexivity.
  - vm_compute. do 2 right. left. reflexivity.
Defined.

(** ** The columns of the week table *)

Lemma getDay_addDays (d : Date) (n : Z) :
  getDay (addDays d n) = (getDay d + n) mod 7.
Proof.
  unfold getDay, addDays.
  rewrite Z.div_add by (unfold MS_PER_DAY; lia).
  rewrite Z.add_mod_idemp_l by lia. f_equal. lia.
Qed.

Lemma weekDays_eq (weekStartDate : Date) :
  WeekView.weekDays weekStartDate
  = [addDays weekStartDate 0; addDays weekStartDate 1; addDays weekStartDate 2;
     addDays weekStartDate 3; addDays weekStartDate 4; addDays weekStartDate 5;
     addDays weekStartDate 6].
Proof. reflexivity. Qed.

Lemma In_weekDays (weekStartDate day : Date) :
  In day (WeekView.weekDays weekStartDate) <->
  exists i, 0 <= i <= 6 /\ day = addDays weekStartDate i.
Proof.
  rewrite weekDays_eq. split.
  - intros Hin. repeat (destruct Hin as [<-|Hin]; [eexists; split; [|reflexivity]; lia|]).
    destruct Hin.
  - intros [i [Hi ->]].
    assert (Hcases : i = 0 \/ i = 1 \/ i = 2 \/ i = 3 \/ i = 4 \/ i = 5 \/ i = 6)
      by lia.
    simpl. intuition (subst; auto).
Qed.

Lemma sameDay_addDays (a weekStartDate : Date) (i : Z) :
  WeekView.isSameCalendarDay a (addDays weekStartDate i) = true <->
  startOfDay weekStartDate + i * MS_PER_DAY <= a
  < startOfDay weekStartDate + (i + 1) * MS_PER_DAY.
Proof.
  unfold WeekView.isSameCalendarDay. rewrite Z.eqb_eq, startOfDay_addDays.
  unfold addDays. pose proof (startOfDay_le a) as Ha.
  split; [intros Heq; unfold MS_PER_DAY in *; lia|]. intros Hr.
  rewrite !startOfDay_div in *.
  assert (a / MS_PER_DAY = weekStartDate / MS_PER_DAY + i); [|lia].
  unfold MS_PER_DAY in *. nia.
Qed.

(** X6. The seven columns of the week table, built from the week start that
    [ScheduleView] derives, are the midnights of Monday, Tuesday, ... Sunday
    of consecutive days; the last one is the end date of the query window,
    and the anchor date falls on the day of exactly one of them. *)
Theorem week_columns_monday_to_sunday :
  forall (anchorDate : Date),
    let weekStart := ScheduleView.weekStart anchorDate in
    let columns := WeekView.weekDays weekStart in
    map getDay columns = [1; 2; 3; 4; 5; 6; 0]
    /\ map startOfDay columns = columns
    /\ columns = map (fun i => weekStart + i * MS_PER_DAY) [0; 1; 2; 3; 4; 5; 6]
    /\ nth_error columns 6 = Some (addDays weekStart 6)
    /\ exists i, 0 <= i <= 6
         /\ forall j, 0 <= j <= 6 ->
              (WeekView.isSameCalendarDay anchorDate (addDays weekStart j) = true
               <-> j = i).
Proof.
  intros anchorDate. cbv zeta. rewrite weekDays_eq.
  destruct (startOfWeek_monday_days anchorDate) as [back [Hback [Hws Hmon]]].
  assert (Hk : ScheduleView.weekStart anchorDate
               = (anchorDate / MS_PER_DAY - back) * MS_PER_DAY).
  { unfold ScheduleView.weekStart. rewrite Hws, startOfDay_div. lia. }
  assert (Hmid : startOfDay (ScheduleView.weekStart anchorDate)
                 = ScheduleView.weekStart anchorDate).
  { rewrite Hk. unfold startOfDay.
    rewrite Z.mod_mul by (unfold MS_PER_DAY; lia). lia. }
  assert (Hday : getDay (ScheduleView.weekStart anchorDate) = 1).
  { rewrite Hk. unfold getDay. rewrite Z.div_mul by (unfold MS_PER_DAY; lia).
    rewrite <- Hmon. f_equal. lia. }
  split; [|split; [|split; [|split]]].
  - cbn [map]. rewrite !getDay_addDays, Hday. reflexivity.
  - cbn [map]. rewrite !startOfDay_addDays, Hmid. reflexivity.
  - reflexivity.
  - reflexivity.
  - exists back. split; [exact Hback|]. intros j Hj.
    rewrite sameDay_addDays, Hmid.
    unfold ScheduleView.weekStart. rewrite Hws.
    pose proof (startOfDay_le anchorDate) as Ha. unfold MS_PER_DAY in *.
    split; [intros Hr; nia|intros ->; lia].
Qed.

(** X7. Among the seven columns of a week, [getAppointmentsForDay] lists an
    appointment of the list under some column exactly when it starts within
    the seven days from the midnight of [weekStartDate], and never under two
    different columns. *)
Theorem appointment_in_one_column :
  forall (weekStartDate : Date) (appointments : list Appointment)
         (A : Appointment),
    In A appointments ->
    ((exists day, In day (WeekView.weekDays weekStartDate)
                  /\ In A (WeekView.getAppointmentsForDay appointments day))
     <-> startOfDay weekStartDate <= startTime A
         < startOfDay weekStartDate + 7 * MS_PER_DAY)
    /\ forall day1 day2,
         In day1 (WeekView.weekDays weekStartDate) ->
         In day2 (WeekView.weekDays weekStartDate) ->
         In A (WeekView.getAppointmentsForDay appointments day1) ->
         In A (WeekView.getAppointmentsForDay appointments day2) ->
         day1 = day2.
Proof.
  intros weekStartDate appointments A HA.
  unfold WeekView.getAppointmentsForDay. split.
  - split.
    + intros [day [Hday Hin]]. apply In_weekDays in Hday as [i [Hi ->]].
      apply filter_In in Hin as [_ Hsame]. apply sameDay_addDays in Hsame.
      unfold MS_PER_DAY in *. lia.
    + intros Hr.
      set (i := (startTime A - startOfDay weekStartDate) / MS_PER_DAY).
      pose proof (Z.div_mod (startTime A - startOfDay weekStartDate) MS_PER_DAY
                    ltac:(unfold MS_PER_DAY; lia)) as Hdm.
      pose proof (Z.mod_pos_bound (startTime A - startOfDay weekStartDate)
                    MS_PER_DAY ltac:(unfold MS_PER_DAY; lia)) as Hmod.
      fold i in Hdm.
      assert (Hi : 0 <= i <= 6) by (unfold MS_PER_DAY in *; lia).
      exists (addDays weekStartDate i). split.
      * apply In_weekDays. now exists i.
      * apply filter_In. split; [exact HA|]. apply sameDay_addDays.
        unfold MS_PER_DAY in *. lia.
  - intros day1 day2 H1 H2 Hin1 Hin2.
    apply In_weekDays in H1 as [i [Hi ->]].
    apply In_weekDays in H2 as [j [Hj ->]].
    apply filter_In in Hin1 as [_ Hs1]. apply filter_In in Hin2 as [_ Hs2].
    apply sameDay_addDays in Hs1. apply sameDay_addDays in Hs2.
    assert (i = j) by (unfold MS_PER_DAY in *; nia). now subst.
Qed.

Lemma appointment_in_one_column_example :
  ((exists day, In day (WeekView.weekDays (ymd 2024 1 1))
                /\ In apt_tuesday
                     (WeekView.getAppointmentsForDay [apt_nine; apt_tuesday] day))
   <-> startOfDay (ymd 2024 1 1) <= startTime apt_tuesday
       < startOfDay (ymd 2024 1 1) + 7 * MS_PER_DAY)
  /\ forall day1 day2,
       In day1 (WeekView.weekDays (ymd 2024 1 1)) ->
       In day2 (WeekView.weekDays (ymd 2024 1 1)) ->
       In apt_tuesday
          (WeekView.getAppointmentsForDay [apt_nine; apt_tuesday] day1) ->
       In apt_tuesday
          (WeekView.getAppointmentsForDay [apt_nine; apt_tuesday] day2) ->
       day1 = day2.
Proof.
  apply (appointment_in_one_column (ymd 2024 1 1) [apt_nine; apt_tuesday]
           apt_tuesday).
  right. left. reflexivity.
Defined.

(** X8. In the week table of a grid whose slot duration divides the hour
    and whose hours lie within the day, every card shown anywhere is in the
    first column and belongs to an appointment that starts on the day of
    [weekStartDate]: the six other columns hold no card, whatever the
    appointments. *)
Theorem week_table_shows_first_day_only :
  forall (cfg : CalendarConfig) (weekStartDate : Date) (fuel : nat)
         (slots : list TimeSlot) (appointments : list Appointment)
         (row : TimeSlot * list (Date * list Appointment))
         (cell : Date * list Appointment) (A : Appointment),
    0 < slotDuration cfg -> 60 mod slotDuration cfg = 0 ->
    startHour cfg < endHour cfg ->
    0 <= startHour cfg /\ endHour cfg <= 24 ->
    (enoughFuel cfg <= fuel)%nat ->
    WeekView.timeSlots fuel cfg weekStartDate = Normal slots ->
    In row (Render.weekRows cfg appointments weekStartDate slots) ->
    In cell (snd row) -> In A (snd cell) ->
    fst cell = addDays weekStartDate 0
    /\ startOfDay (startTime A) = startOfDay weekStartDate.
Proof.
  intros cfg weekStartDate fuel slots appointments row cell A
    Hd Hdiv Hh Hday Hfuel Hrun Hrow Hcell HA.
  unfold WeekView.timeSlots in Hrun.
  rewrite (timeSlots_returns cfg weekStartDate fuel Hd Hfuel) in Hrun.
  injection Hrun as <-.
  unfold Render.weekRows in Hrow.
  apply in_map_iff in Hrow as [slot [<- Hslot]]. cbn [snd] in Hcell.
  apply in_map_iff in Hcell as [day [<- Hin]]. cbn [fst snd] in *.
  apply In_weekDays in Hin as [i [Hi ->]].
  destruct (Z.eq_dec i 0) as [->|Hne].
  - split; [reflexivity|].
    change (In A (WeekView.cell cfg appointments (addDays weekStartDate 0) slot))
      in HA.
    apply week_cell_In in HA as [_ [Hsame _]].
    rewrite Hsame, startOfDay_addDays. unfold addDays. lia.
  - exfalso.
    change (In A (WeekView.cell cfg appointments (addDays weekStartDate i) slot))
      in HA.
    rewrite (week_later_columns_empty cfg weekStartDate appointments Hd Hdiv Hh
               Hday slot i Hslot ltac:(lia)) in HA.
    exact HA.
Qed.

Lemma week_table_example :
  fst (ymd 2024 1 1, [apt_nine]) = addDays (ymd 2024 1 1) 0
  /\ startOfDay (startTime apt_nine) = startOfDay (ymd 2024 1 1).
Proof.
  apply (week_table_shows_first_day_only DEFAULT_CALENDAR_CONFIG (ymd 2024 1 1)
           100 (hourRows DEFAULT_CALENDAR_CONFIG (ymd 2024 1 1))
           [apt_nine; apt_tuesday]
           (slot_0900,
            map (fun day =>
                   (day, WeekView.getAppointmentsForDayAndSlot
                           DEFAULT_CALENDAR_CONFIG [apt_nine; apt_tuesday]
                           day (start slot_0900)))
                (WeekView.weekDays (ymd 2024 1 1)))
           (ymd 2024 1 1, [apt_nine]) apt_nine).
  - reflexivity.
  - reflexivity.
  - reflexivity.
  - vm_compute. split; discriminate.
  - vm_compute. lia.
  - vm_compute. reflexivity.
  - unfold Render.weekRows. apply in_map_iff. exists slot_0900.
    split; [reflexivity|]. vm_compute. do 2 right. left. reflexivity.
  - left. reflexivity.
  - left. reflexivity.
Defined.

(** ** The duration shown on a card *)


(** ** What the calendar area shows *)

(** X10. Before the first effect the calendar area shows only the loading
    message.  Once the effect of a selection has run it shows exactly one
    thing: the error message when the read threw (the retained appointments
    are not rendered), and otherwise the view of the selection with the
    sorted result of the read; the day view reads by doctor and selected
    date, the week view by doctor and the range from the week start to six
    days later. *)
Theorem calendar_area_after_effect :
  forall (svc : AppointmentService) (sel : ScheduleView.Selection)
         (s : HookState),
    Render.calendarArea sel initialState = [Render.LoadingPanel]
    /\ Render.calendarArea sel (afterEffect svc s (ScheduleView.hookParams sel))
       = match ScheduleView.view sel with
         | ScheduleView.day =>
             match getAppointmentsByDoctorAndDate svc
                     (ScheduleView.selectedDoctorId sel)
                     (ScheduleView.selectedDate sel) with
             | Returns data =>
                 [Render.DayViewPanel (array_sort byStartTime data)
                    (ScheduleView.selectedDate sel)]
             | Throws _ => [Render.ErrorPanel]
             end
         | ScheduleView.week =>
             let weekStart := ScheduleView.weekStart (ScheduleView.selectedDate sel) in
             match getAppointmentsByDoctorAndDateRange svc
                     (ScheduleView.selectedDoctorId sel)
                     weekStart (addDays weekStart 6) with
             | Returns data =>
                 [Render.WeekViewPanel (array_sort byStartTime data) weekStart]
             | Throws _ => [Render.ErrorPanel]
             end
         end.
Proof.
  intros svc sel s. split; [reflexivity|].
  rewrite afterEffect_eq. unfold query, ScheduleView.hookParams.
  destruct sel as [doctor anchor [|]];
    cbn [startDate endDate doctorId date ScheduleView.view
         ScheduleView.selectedDoctorId ScheduleView.selectedDate];
    cbv zeta;
    match goal with
    | |- context [match ?r with Returns _ => _ | Throws _ => _ end] =>
        destruct r; reflexivity
    end.
Qed.

(** ** A list the service already sorted *)

Lemma array_sort_of_sorted (l : list Appointment) :
  sortedByStartTime l -> array_sort byStartTime l = l.
Proof.
  unfold sortedByStartTime. induction 1 as [|a l Hl IH Ha]; simpl.
  - reflexivity.
  - rewrite IH. destruct l as [|b l]; simpl; [reflexivity|].
    apply Forall_inv in Ha. unfold byStartTime.
    destruct (Z.leb_spec (startTime a - startTime b) 0); [reflexivity|lia].
Qed.

(** X11. When the service returns its list already in ascending order of
    start time, the hook exposes that very list: the sort changes nothing,
    also not the order of appointments that start at the same time. *)
Theorem sorted_result_exposed_unchanged :
  forall (svc : AppointmentService) (sel : ScheduleView.Selection)
         (s : HookState) (data : list Appointment),
    query svc (ScheduleView.hookParams sel) = Returns data ->
    sortedByStartTime data ->
    appointments (afterEffect svc s (ScheduleView.hookParams sel)) = data.
Proof.
  intros svc sel s data Hq Hs. rewrite afterEffect_eq, Hq. cbn [appointments].
  now apply array_sort_of_sorted.
Qed.

Lemma sorted_result_example :
  appointments
    (afterEffect sorted_service initialState (ScheduleView.hookParams select_d1))
  = [apt_nine; apt_ten_a; apt_ten_b].
Proof.
  apply (sorted_result_exposed_unchanged sorted_service select_d1 initialState
           [apt_nine; apt_ten_a; apt_ten_b]).
  - reflexivity.
  - repeat constructor; vm_compute; discriminate.
Defined.

(** ** The number of rows an appointment spans *)

Lemma map_seq_constant {A : Type} (f : nat -> A) (c : A) (n s : nat) :
  (forall i, (s <= i < s + n)%nat -> f i = c) ->
  map f (seq s n) = repeat c n.
Proof.
  revert s. induction n as [|n IH]; intros s Hf; simpl; [reflexivity|].
  rewrite Hf by lia. f_equal. apply IH. intros i Hi. apply Hf. lia.
Qed.

Lemma map_seq_band {A : Type} (f : nat -> A) (x y : A) (lo hi n : nat) :
  (lo <= hi < n)%nat ->
  (forall i, (i < n)%nat -> f i = if ((lo <=? i) && (i <=? hi))%nat then x else y) ->
  map f (seq 0 n)
  = repeat y lo ++ repeat x (hi - lo + 1) ++ repeat y (n - hi - 1).
Proof.
  intros Hb Hf.
  replace n with (lo + ((hi - lo + 1) + (n - hi - 1)))%nat at 1 by lia.
  rewrite (seq_app lo ((hi - lo + 1) + (n - hi - 1)) 0),
    (seq_app (hi - lo + 1) (n - hi - 1) (0 + lo)), !map_app.
  cbn [Nat.add]. f_equal; [|f_equal].
  - apply map_seq_constant. intros i Hi. rewrite Hf by lia.
    destruct (Nat.leb_spec lo i); [lia|reflexivity].
  - apply map_seq_constant. intros i Hi. rewrite Hf by lia.
    destruct (Nat.leb_spec lo i); [|lia].
    destruct (Nat.leb_spec i hi); [reflexivity|lia].
  - apply map_seq_constant. intros i Hi. rewrite Hf by lia.
    destruct (Nat.leb_spec lo i); [|lia].
    destruct (Nat.leb_spec i hi); [lia|reflexivity].
Qed.

(** X12. In the day timeline of a grid whose slot duration divides the hour,
    an appointment that lies within the window of the grid and ends after
    it starts is placed once in each row from the row of its start to the
    row of its last millisecond, and in no other row: an appointment that
    spans [k] slots gets [k] cards. *)
Theorem appointment_spans_rows :
  forall (cfg : CalendarConfig) (date : Date) (fuel : nat)
         (slots : list TimeSlot) (A : Appointment),
    0 < slotDuration cfg -> 60 mod slotDuration cfg = 0 ->
    startHour cfg < endHour cfg ->
    (enoughFuel cfg <= fuel)%nat ->
    DayView.timeSlots fuel cfg date = Normal slots ->
    gridStart cfg date <= startTime A -> startTime A < endTime A ->
    endTime A <= gridEnd cfg date ->
    let first := Z.to_nat ((startTime A - gridStart cfg date) / slotMs cfg) in
    let last := Z.to_nat ((endTime A - 1 - gridStart cfg date) / slotMs cfg) in
    (first <= last < List.length slots)%nat
    /\ map snd (Render.dayRows [A] slots)
       = repeat [] first ++ repeat [A] (last - first + 1)
         ++ repeat [] (List.length slots - last - 1).
Proof.
  intros cfg date fuel slots A Hd Hdiv Hh Hfuel Hrun Hlo Hwf Hhi. cbv zeta.
  unfold DayView.timeSlots in Hrun.
  rewrite (timeSlots_returns cfg date fuel Hd Hfuel) in Hrun.
  injection Hrun as <-.
  rewrite (hourRows_nthSlot cfg date Hd Hdiv), length_map, length_seq.
  pose proof (slotMs_pos cfg Hd) as Hpos.
  pose proof (grid_span cfg date Hd Hdiv Hh) as Hg.
  set (a := startTime A - gridStart cfg date) in *.
  set (b := endTime A - 1 - gridStart cfg date) in *.
  pose proof (Z.div_mod a (slotMs cfg) ltac:(lia)) as Ha.
  pose proof (Z.mod_pos_bound a (slotMs cfg) Hpos) as Hma.
  pose proof (Z.div_mod b (slotMs cfg) ltac:(lia)) as Hb.
  pose proof (Z.mod_pos_bound b (slotMs cfg) Hpos) as Hmb.
  assert (H0a : 0 <= a / slotMs cfg) by (apply Z.div_pos; lia).
  assert (Hab : a / slotMs cfg <= b / slotMs cfg)
    by (apply Z.div_le_mono; lia).
  assert (HbN : b / slotMs cfg
                < Z.of_nat (hoursShown cfg * slotsPerHour cfg)).
  { apply Z.div_lt_upper_bound; [lia|]. unfold b. lia. }
  assert (Hrange : (Z.to_nat (a / slotMs cfg) <= Z.to_nat (b / slotMs cfg)
                    < hoursShown cfg * slotsPerHour cfg)%nat) by lia.
  split; [exact Hrange|].
  unfold Render.dayRows. rewrite !map_map. cbn [snd].
  apply map_seq_band; [exact Hrange|].
  intros i Hi. unfold DayView.getAppointmentsForSlot. cbn [filter]. cbv zeta.
  pose proof (row_overlap cfg date Hd (startTime A) (endTime A) i) as Hov.
  fold a b in Hov.
  destruct (isBefore (startTime A) (end_ (nthSlot cfg date i))
            && isAfter (endTime A) (start (nthSlot cfg date i))) eqn:Hc.
  - apply andb_true_iff in Hc as [H1 H2].
    apply isBefore_lt in H1. apply isAfter_gt in H2.
    destruct (proj1 Hov (conj H1 H2)) as [Hl Hu].
    destruct (Nat.leb_spec (Z.to_nat (a / slotMs cfg)) i); [|lia].
    destruct (Nat.leb_spec i (Z.to_nat (b / slotMs cfg))); [reflexivity|lia].
  - destruct (Nat.leb_spec (Z.to_nat (a / slotMs cfg)) i); [|reflexivity].
    destruct (Nat.leb_spec i (Z.to_nat (b / slotMs cfg))); [|reflexivity].
    exfalso. destruct (proj2 Hov ltac:(lia)) as [H1 H2].
    apply isBefore_lt in H1. apply isAfter_gt in H2.
    rewrite H1, H2 in Hc. discriminate Hc.
Qed.

Lemma appointment_spans_two_rows :
  let slots := hourRows DEFAULT_CALENDAR_CONFIG (ymd 2024 1 1) in
  (2 <= 3 < List.length slots)%nat
  /\ map snd (Render.dayRows [apt_quarter_past] slots)
     = repeat [] 2 ++ repeat [apt_quarter_past] 2 ++ repeat [] 16.
Proof.
  cbv zeta.
  apply (appointment_spans_rows DEFAULT_CALENDAR_CONFIG (ymd 2024 1 1) 100
           (hourRows DEFAULT_CALENDAR_CONFIG (ymd 2024 1 1)) apt_quarter_past).
  - reflexivity.
  - reflexivity.
  - reflexivity.
  - vm_compute. lia.
  - vm_compute. reflexivity.
  - vm_compute. discriminate.
  - reflexivity.
  - vm_compute. discriminate.
Defined.

(** ** The labels of the slots *)

Lemma clock_of_setHours (date : Date) (h m : Z) :
  0 <= h < 24 -> 0 <= m < 60 ->
  getHours (setHours date h m 0 0) = h
  /\ getMinutes (setHours date h m 0 0) = m.
Proof.
  intros Hh Hm. unfold getHours, getMinutes, setHours.
  rewrite startOfDay_div. unfold MS_PER_DAY, MS_PER_HOUR, MS_PER_MINUTE.
  set (k := date / 86400000).
  assert (H1 : (86400000 * k + h * 3600000 + m * 60000 + 0 * 1000 + 0)
               mod 86400000 = h * 3600000 + m * 60000).
  { symmetry. apply Z.mod_unique_pos with (q := k); lia. }
  assert (H2 : (86400000 * k + h * 3600000 + m * 60000 + 0 * 1000 + 0)
               mod 3600000 = m * 60000).
  { symmetry. apply Z.mod_unique_pos with (q := 24 * k + h); lia. }
  rewrite H1, H2. split.
  - symmetry. apply Z.div_unique_pos with (r := m * 60000); lia.
  - symmetry. apply Z.div_unique_pos with (r := 0); lia.
Qed.

Lemma digit_inj (a b : Z) :
  0 <= a < 10 -> 0 <= b < 10 -> digit a = digit b -> a = b.
Proof.
  intros Ha Hb Heq. unfold digit in Heq.
  apply (f_equal nat_of_ascii) in Heq.
  rewrite !nat_ascii_embedding in Heq by lia. lia.
Qed.

Lemma pad2_inj (a b : Z) :
  0 <= a < 100 -> 0 <= b < 100 -> pad2 a = pad2 b -> a = b.
Proof.
  intros Ha Hb Heq. unfold pad2 in Heq. injection Heq as H1 H2.
  apply digit_inj in H1;
    [|split; [apply Z.div_pos|apply Z.div_lt_upper_bound]; lia
     |split; [apply Z.div_pos|apply Z.div_lt_upper_bound]; lia].
  apply digit_inj in H2; [|apply Z.mod_pos_bound; lia|apply Z.mod_pos_bound; lia].
  pose proof (Z.div_mod a 10 ltac:(lia)). pose proof (Z.div_mod b 10 ltac:(lia)).
  lia.
Qed.

Lemma clock_label_inj (h m h' m' : Z) :
  0 <= h < 24 -> 0 <= m < 60 -> 0 <= h' < 24 -> 0 <= m' < 60 ->
  (pad2 h ++ String ":"%char (pad2 m))%string
  = (pad2 h' ++ String ":"%char (pad2 m'))%string ->
  h = h' /\ m = m'.
Proof.
  intros Hh Hm Hh' Hm' Heq.
  assert (Hparts : pad2 h = pad2 h' /\ pad2 m = pad2 m').
  { unfold pad2 in *. cbn [String.append] in Heq.
    injection Heq as E1 E2 E3 E4. now rewrite E1, E2, E3, E4. }
  destruct Hparts as [E1 E2].
  apply pad2_inj in E1; [|lia|lia]. apply pad2_inj in E2; [|lia|lia]. now split.
Qed.

Lemma NoDup_map_on {A B : Type} (f : A -> B) (l : list A) :
  (forall x y, In x l -> In y l -> f x = f y -> x = y) ->
  NoDup l -> NoDup (map f l).
Proof.
  intros Hinj Hnd. induction Hnd as [|a l Ha Hnd IH]; simpl; constructor.
  - intros Hin. apply in_map_iff in Hin as [b [Heq Hb]].
    assert (b = a) by (apply Hinj; [now right|now left|exact Heq]).
    subst b. now apply Ha.
  - apply IH. intros x y Hx Hy. apply Hinj; now right.
Qed.

Section Labels.

Variable cfg : CalendarConfig.
Variable date : Date.
Hypothesis duration_pos : 0 < slotDuration cfg.
Hypothesis hours_in_day : 0 <= startHour cfg /\ endHour cfg <= 24.

(** The hour and the minute of the loops at position [n]. *)
Lemma position_clock (n : nat) :
  (n < hoursShown cfg * slotsPerHour cfg)%nat ->
  let h := startHour cfg + Z.of_nat (n / slotsPerHour cfg) in
  let m := Z.of_nat (n mod slotsPerHour cfg) * slotDuration cfg in
  (startHour cfg <= h < endHour cfg /\ 0 <= h < 24) /\ 0 <= m < 60
  /\ start (slotAtPosition cfg date n) = setHours date h m 0 0
  /\ label (slotAtPosition cfg date n)
     = (pad2 h ++ String ":"%char (pad2 m))%string.
Proof.
  intros Hn. cbv zeta.
  pose proof (slotsPerHour_nonzero cfg duration_pos) as Hc.
  assert (Hq : (n / slotsPerHour cfg < hoursShown cfg)%nat)
    by (apply Nat.Div0.div_lt_upper_bound; lia).
  pose proof (minute_below_60 cfg duration_pos _
                (Nat.mod_upper_bound n (slotsPerHour cfg) ltac:(lia))) as Hm.
  assert (Hh : startHour cfg <= startHour cfg + Z.of_nat (n / slotsPerHour cfg)
               < endHour cfg) by (unfold hoursShown in Hq; lia).
  split; [split; [exact Hh|lia]|]. split; [exact Hm|].
  unfold slotAtPosition, SlotGrid.makeSlot. cbv zeta. cbn [start label].
  split; [reflexivity|]. unfold formatHHmm.
  destruct (clock_of_setHours date
              (startHour cfg + Z.of_nat (n / slotsPerHour cfg))
              (Z.of_nat (n mod slotsPerHour cfg) * slotDuration cfg)
              ltac:(lia) Hm) as [-> ->].
  reflexivity.
Qed.

Lemma position_label_inj (n n' : nat) :
  (n < hoursShown cfg * slotsPerHour cfg)%nat ->
  (n' < hoursShown cfg * slotsPerHour cfg)%nat ->
  label (slotAtPosition cfg date n) = label (slotAtPosition cfg date n') ->
  n = n'.
Proof.
  intros Hn Hn' Heq.
  destruct (position_clock n Hn) as [[_ Hh] [Hm [_ Hl]]].
  destruct (position_clock n' Hn') as [[_ Hh'] [Hm' [_ Hl']]].
  rewrite Hl, Hl' in Heq.
  apply clock_label_inj in Heq as [E1 E2]; [|lia|lia|lia|lia].
  pose proof (Nat.div_mod_eq n (slotsPerHour cfg)).
  pose proof (Nat.div_mod_eq n' (slotsPerHour cfg)).
  assert (n / slotsPerHour cfg = n' / slotsPerHour cfg)%nat by lia.
  assert (n mod slotsPerHour cfg = n' mod slotsPerHour cfg)%nat by nia.
  lia.
Qed.

End Labels.

(** X13. When the hours of the configuration lie within the day and the
    slot duration is positive, every slot is labelled with the hour and the
    minute of the loops that pushed it, two digits each, and no two slots of
    the grid carry the same label. *)
Theorem slot_labels_are_clock_times_and_distinct :
  forall (cfg : CalendarConfig) (date : Date) (fuel : nat)
         (slots : list TimeSlot),
    0 < slotDuration cfg ->
    0 <= startHour cfg /\ endHour cfg <= 24 ->
    (enoughFuel cfg <= fuel)%nat ->
    DayView.timeSlots fuel cfg date = Normal slots ->
    (forall s, In s slots ->
       exists h m,
         startHour cfg <= h < endHour cfg /\ 0 <= m < 60
         /\ start s = setHours date h m 0 0
         /\ label s = (pad2 h ++ String ":"%char (pad2 m))%string)
    /\ NoDup (map label slots).
Proof.
  intros cfg date fuel slots Hd Hday Hfuel Hrun.
  unfold DayView.timeSlots in Hrun.
  rewrite (timeSlots_returns cfg date fuel Hd Hfuel) in Hrun.
  injection Hrun as <-. rewrite (hourRows_by_position cfg date Hd). split.
  - intros s Hin. apply in_map_iff in Hin as [n [<- Hn]]. apply in_seq in Hn.
    destruct (position_clock cfg date Hd Hday n ltac:(lia))
      as [[Hh _] [Hm [Hs Hl]]].
    eexists. eexists. split; [exact Hh|]. split; [exact Hm|]. now split.
  - rewrite map_map. apply NoDup_map_on; [|apply seq_NoDup].
    intros n n' Hn Hn'. apply in_seq in Hn. apply in_seq in Hn'.
    apply (position_label_inj cfg date Hd Hday); lia.
Qed.

Lemma slot_labels_45_minutes :
  (forall s, In s (hourRows config_45 (ymd 2024 1 1)) ->
     exists h m,
       startHour config_45 <= h < endHour config_45 /\ 0 <= m < 60
       /\ start s = setHours (ymd 2024 1 1) h m 0 0
       /\ label s = (pad2 h ++ String ":"%char (pad2 m))%string)
  /\ NoDup (map label (hourRows config_45 (ymd 2024 1 1))).
Proof.
  apply (slot_labels_are_clock_times_and_distinct config_45 (ymd 2024 1 1) 100).
  - reflexivity.
  - vm_compute. split; discriminate.
  - vm_compute. lia.
  - vm_compute. reflexivity.
Defined.
